(** * Masterversacharya: session routing, reply extraction and response caching

    A shallow embedding of the Python sources

      - [telegram_bot.py]                  (chat front-end, session store,
                                            reply extractor)
      - [spiritual_api.py]                 (knowledge queries, TTL cache)
      - [masterversacharya/spiritual_api.py] (packaged copy of the same class,
                                            with two more operations)
      - [agent.py]                         (tool functions given to the agent)

    Conventions of the embedding.

      - A Python value that comes out of [json.loads] or is built as a result
        dictionary is a [pyval].  A [dict] is an association list with string
        keys, in insertion order, keys pairwise distinct.
      - A Python [str] is a [string].  On a string of 7-bit characters
        ([ascii_only]) the functions [lower], [title] and [str_prefix] are
        Python's [str.lower], [str.title] and [s[:n]]; the names in the
        tables are such strings.
      - A Python [float] is a double, given by its value, a rational number.
        The difference of two of them is the double nearest to the exact
        difference ([float_sub]).
      - Code that can raise returns an [outcome]; [try/except] is [catch].
      - The Generation Service and the Agent Run Service are oracles; every
        call made to them is recorded, in order, in the state. *)

From Stdlib Require Import ZArith QArith Qround Qpower Lqa Ascii DecimalString.
From stdpp Require Import base option list gmap strings sorting.

Set Warnings "-register-all".
Local Open Scope Z_scope.

(** ** Python values and exceptions *)

Module Py.

Inductive pyexn : Type :=
| TypeError
| KeyError
| IndexError
| AttributeError
| ValueError (msg : string)
| JSONDecodeError
| RuntimeError (msg : string).

(** [str(e)] for the exceptions whose text the sources print or return. *)
Definition str_of_exn (e : pyexn) : string :=
  match e with
  | ValueError m | RuntimeError m => m
  | TypeError => "TypeError"
  | KeyError => "KeyError"
  | IndexError => "IndexError"
  | AttributeError => "AttributeError"
  | JSONDecodeError => "JSONDecodeError"
  end.

Inductive outcome (A : Type) : Type :=
| Return (a : A)
| Raise (e : pyexn).
Arguments Return {A} a.
Arguments Raise {A} e.

Definition obind {A B} (m : outcome A) (k : A -> outcome B) : outcome B :=
  match m with
  | Return a => k a
  | Raise e => Raise e
  end.

Inductive pyval : Type :=
| VNone
| VBool (b : bool)
| VInt (z : Z)
| VFloat (q : Q)
| VStr (s : string)
| VList (l : list pyval)
| VDict (d : list (string * pyval)).

(** *** Strings *)

Definition nl : string := String (ascii_of_nat 10) "".
Definition dq : string := String (ascii_of_nat 34) "".

Definition is_upper (c : ascii) : bool :=
  (65 <=? nat_of_ascii c)%nat && (nat_of_ascii c <=? 90)%nat.
Definition is_lower (c : ascii) : bool :=
  (97 <=? nat_of_ascii c)%nat && (nat_of_ascii c <=? 122)%nat.
Definition to_lower (c : ascii) : ascii :=
  if is_upper c then ascii_of_nat (nat_of_ascii c + 32) else c.
Definition to_upper (c : ascii) : ascii :=
  if is_lower c then ascii_of_nat (nat_of_ascii c - 32) else c.

(** The strings all of whose characters are 7-bit. *)
Fixpoint ascii_only (s : string) : bool :=
  match s with
  | EmptyString => true
  | String c s' => (nat_of_ascii c <? 128)%nat && ascii_only s'
  end.

(** [s.lower()], for [s] of 7-bit characters. *)
Fixpoint lower (s : string) : string :=
  match s with
  | EmptyString => EmptyString
  | String c s' => String (to_lower c) (lower s')
  end.

(** [s.title()], for [s] of 7-bit characters: a cased character that
    follows an uncased one is put in upper case, every other cased
    character in lower case. *)
Fixpoint title_from (previous_is_cased : bool) (s : string) : string :=
  match s with
  | EmptyString => EmptyString
  | String c s' =>
      if is_lower c then
        String (if previous_is_cased then c else to_upper c) (title_from true s')
      else if is_upper c then
        String (if previous_is_cased then to_lower c else c) (title_from true s')
      else String c (title_from false s')
  end.
Definition title (s : string) : string := title_from false s.

(** [sub in s] for two strings *)
Fixpoint is_substring (sub s : string) : bool :=
  String.prefix sub s ||
  match s with
  | EmptyString => false
  | String _ s' => is_substring sub s'
  end.

(** [s.startswith(p)] *)
Definition startswith (s p : string) : bool := String.prefix p s.

(** [s[:n]], for [s] of 7-bit characters. *)
Definition str_prefix (n : nat) (s : string) : string := String.substring 0 n s.

(** [sep.join(l)] *)
Definition join (sep : string) (l : list string) : string := String.concat sep l.

(** [s.split(sep)] for a one-character separator: never empty. *)
Fixpoint split_char (sep : ascii) (s : string) : list string :=
  match s with
  | EmptyString => [EmptyString]
  | String c s' =>
      if Ascii.eqb c sep then EmptyString :: split_char sep s'
      else match split_char sep s' with
           | [] => [String c EmptyString]
           | w :: ws => String c w :: ws
           end
  end.

(** [sorted(l)] on strings: the built-in sort is a stable merge sort under
    [<], which on strings is the lexicographic order of the characters. *)
Definition sorted (l : list string) : list string := merge_sort String.le l.

(** [f"{n}"] for an [int] *)
Definition str_of_int (z : Z) : string := NilZero.string_of_int (Z.to_int z).

Definition chars (s : string) : list pyval :=
  (fun c => VStr (String c EmptyString)) <$> String.list_ascii_of_string s.

(** *** Floating point *)

(** The integer nearest to [t]; of two that are equally near, the even
    one. *)
Definition round_half_even (t : Q) : Z :=
  let f := Qfloor t in
  match (t - inject_Z f ?= 1 # 2)%Q with
  | Lt => f
  | Gt => f + 1
  | Eq => if Z.even f then f else f + 1
  end.

(** For [x > 0], the [k] with [2^k <= x < 2^(k+1)]. *)
Definition Qlog2 (x : Q) : Z :=
  let k := Z.log2 (Qnum x) - Z.log2 (Zpos (Qden x)) in
  if Qle_bool (2 ^ k) x then k else k - 1.

(** For [x > 0], the double nearest to [x], ties to even (IEEE 754
    binary64): 53 significant bits, the last of them worth [2^e] with
    [e >= -1074]. *)
Definition nearest_double (x : Q) : Q :=
  let e := Z.max (-1074) (Qlog2 x - 52) in
  (inject_Z (round_half_even (x * 2 ^ (- e))) * 2 ^ e)%Q.

(** The double nearest to the real number [x].  Beyond the largest double,
    where the machine has an infinity, it is a number of the same sign and
    of no smaller magnitude, which compares with every double as the
    infinity does. *)
Definition double_of (x : Q) : Q :=
  match Qnum x with
  | Z0 => 0%Q
  | Zpos _ => nearest_double x
  | Zneg _ => (- nearest_double (- x))%Q
  end.

(** [x - y] for two floats *)
Definition float_sub (x y : Q) : Q := double_of (x - y).

(** *** Dictionaries *)

Fixpoint dict_get {V} (k : string) (d : list (string * V)) : option V :=
  match d with
  | [] => None
  | (k', v) :: d' => if String.eqb k k' then Some v else dict_get k d'
  end.

Definition dict_mem {V} (k : string) (d : list (string * V)) : bool :=
  match dict_get k d with Some _ => true | None => false end.

Definition dict_keys {V} (d : list (string * V)) : list string := fst <$> d.

(** *** Operators of the language, on [pyval] *)

(** [bool(v)] *)
Definition truthy (v : pyval) : bool :=
  match v with
  | VNone => false
  | VBool b => b
  | VInt z => negb (z =? 0)
  | VFloat q => negb (Qeq_bool q 0)
  | VStr s => negb (String.eqb s "")
  | VList l => match l with [] => false | _ => true end
  | VDict d => match d with [] => false | _ => true end
  end.

(** [v == s] for a string literal [s] *)
Definition eq_str (v : pyval) (s : string) : bool :=
  match v with
  | VStr t => String.eqb t s
  | _ => false
  end.

(** [k in v] for a string [k] *)
Definition contains (k : string) (v : pyval) : outcome bool :=
  match v with
  | VDict d => Return (dict_mem k d)
  | VList l => Return (existsb (fun x => eq_str x k) l)
  | VStr s => Return (is_substring k s)
  | _ => Raise TypeError
  end.

(** [len(v)] *)
Definition len (v : pyval) : outcome nat :=
  match v with
  | VDict d => Return (length d)
  | VList l => Return (length l)
  | VStr s => Return (String.length s)
  | _ => Raise TypeError
  end.

(** [v[k]] for a string [k] *)
Definition getitem (v : pyval) (k : string) : outcome pyval :=
  match v with
  | VDict d => match dict_get k d with
               | Some x => Return x
               | None => Raise KeyError
               end
  | _ => Raise TypeError
  end.

(** [v[0]]; a dictionary has string keys only, so [0] is never one. *)
Definition getitem0 (v : pyval) : outcome pyval :=
  match v with
  | VList l => match l with
               | x :: _ => Return x
               | [] => Raise IndexError
               end
  | VStr s => match s with
              | String c _ => Return (VStr (String c EmptyString))
              | EmptyString => Raise IndexError
              end
  | VDict _ => Raise KeyError
  | _ => Raise TypeError
  end.

(** [v.get(k, default)] *)
Definition get (v : pyval) (k : string) (default : pyval) : outcome pyval :=
  match v with
  | VDict d => match dict_get k d with
               | Some x => Return x
               | None => Return default
               end
  | _ => Raise AttributeError
  end.

(** The items a [for] loop visits. *)
Definition iter (v : pyval) : outcome (list pyval) :=
  match v with
  | VList l => Return l
  | VStr s => Return (chars s)
  | VDict d => Return (VStr <$> dict_keys d)
  | _ => Raise TypeError
  end.

(** [reversed(v)] *)
Definition reversed (v : pyval) : outcome (list pyval) :=
  match v with
  | VList l => Return (rev l)
  | VStr s => Return (rev (chars s))
  | VDict d => Return (rev (VStr <$> dict_keys d))
  | _ => Raise TypeError
  end.

Definition Z_of_bool (b : bool) : Z := if b then 1 else 0.

(** [a += b] *)
Definition iadd (a b : pyval) : outcome pyval :=
  match a, b with
  | VStr s, VStr t => Return (VStr (s +:+ t))
  | VList l, _ => obind (iter b) (fun items => Return (VList (l ++ items)))
  | VBool x, VBool y => Return (VInt (Z_of_bool x + Z_of_bool y))
  | VBool x, VInt y => Return (VInt (Z_of_bool x + y))
  | VInt x, VBool y => Return (VInt (x + Z_of_bool y))
  | VInt x, VInt y => Return (VInt (x + y))
  | VBool x, VFloat y => Return (VFloat (inject_Z (Z_of_bool x) + y))
  | VInt x, VFloat y => Return (VFloat (inject_Z x + y))
  | VFloat x, VBool y => Return (VFloat (x + inject_Z (Z_of_bool y)))
  | VFloat x, VInt y => Return (VFloat (x + inject_Z y))
  | VFloat x, VFloat y => Return (VFloat (x + y))
  | _, _ => Raise TypeError
  end.

End Py.

Import Py.

Notation "'let*' x := m 'in' k" := (obind m (fun x => k))
  (at level 10, x name, m at level 100, k at level 200).

(** ** Code with a state that may raise *)

Module Effects.

Definition stexn (S A : Type) : Type := S -> outcome A * S.

Definition ret {S A} (a : A) : stexn S A := fun s => (Return a, s).
Definition raise {S A} (e : pyexn) : stexn S A := fun s => (Raise e, s).
Definition lift {S A} (o : outcome A) : stexn S A := fun s => (o, s).
Definition bind {S A B} (m : stexn S A) (k : A -> stexn S B) : stexn S B :=
  fun s => match m s with
           | (Return a, s') => k a s'
           | (Raise e, s') => (Raise e, s')
           end.
(** [try: m except Exception as e: h e] *)
Definition catch {S A} (m : stexn S A) (h : pyexn -> stexn S A) : stexn S A :=
  fun s => match m s with
           | (Return a, s') => (Return a, s')
           | (Raise e, s') => h e s'
           end.

End Effects.

Import Effects.

Notation "'do' x <- m ; k" := (bind m (fun x => k))
  (at level 10, x name, m at level 100, k at level 200).

(** ** telegram_bot.py: the reply extractor

    Lines 306-346 of [handle_message], from [model_response = ""] to the
    fallback assignment.  [model_response] is threaded through the four
    attempts; each attempt is guarded by [not model_response]. *)

Module ReplyExtractor.

Definition FALLBACK : string :=
  "I received your message but couldn't generate a proper response.".

(** [if parts and len(parts) > 0 and "text" in parts[0]:
        model_response = parts[0]["text"]] *)
Definition text_of_parts (parts model_response : pyval) : outcome pyval :=
  if truthy parts then
    let* n := len parts in
    if (0 <? n)%nat then
      let* p0 := getitem0 parts in
      let* has_text := contains "text" p0 in
      if has_text then getitem p0 "text" else Return model_response
    else Return model_response
  else Return model_response.

(** [if "content" in item and "parts" in item["content"]:
        parts = item["content"]["parts"]; ...] *)
Definition text_of_item (item model_response : pyval) : outcome pyval :=
  let* has_content := contains "content" item in
  if has_content then
    let* content := getitem item "content" in
    let* has_parts := contains "parts" content in
    if has_parts then
      let* content := getitem item "content" in
      let* parts := getitem content "parts" in
      text_of_parts parts model_response
    else Return model_response
  else Return model_response.

(** Lines 310-315: [api_response["candidates"][0]]. *)
Definition try_candidates (api_response model_response : pyval) : outcome pyval :=
  let* has_candidates := contains "candidates" api_response in
  if has_candidates then
    let* candidates := getitem api_response "candidates" in
    let* n := len candidates in
    if (0 <? n)%nat then
      let* candidates := getitem api_response "candidates" in
      let* first_candidate := getitem0 candidates in
      text_of_item first_candidate model_response
    else Return model_response
  else Return model_response.

(** Lines 318-323: the response is itself a list. *)
Definition try_list (api_response model_response : pyval) : outcome pyval :=
  if negb (truthy model_response) then
    match api_response with
    | VList l =>
        if (0 <? length l)%nat then
          let* first_item := getitem0 api_response in
          text_of_item first_item model_response
        else Return model_response
    | _ => Return model_response
    end
  else Return model_response.

(** Lines 326-331: [api_response["response"]["parts"][0]]. *)
Definition try_response (api_response model_response : pyval) : outcome pyval :=
  if negb (truthy model_response) then
    let* has_response := contains "response" api_response in
    if has_response then
      let* response_obj := getitem api_response "response" in
      match response_obj with
      | VDict d =>
          if dict_mem "parts" d then
            let* parts := getitem response_obj "parts" in
            text_of_parts parts model_response
          else Return model_response
      | _ => Return model_response
      end
    else Return model_response
  else Return model_response.

(** Lines 340-342: [for part in parts: if "text" in part:
    model_response += part["text"]] *)
Fixpoint concat_parts (parts : list pyval) (model_response : pyval) : outcome pyval :=
  match parts with
  | [] => Return model_response
  | part :: rest =>
      let* has_text := contains "text" part in
      if has_text then
        let* text := getitem part "text" in
        let* model_response := iadd model_response text in
        concat_parts rest model_response
      else concat_parts rest model_response
  end.

(** Lines 337-343: [for message in reversed(messages)], left at the first
    message whose role is ["model"]. *)
Fixpoint scan_messages (messages : list pyval) (model_response : pyval) : outcome pyval :=
  match messages with
  | [] => Return model_response
  | message :: rest =>
      let* role := get message "role" VNone in
      if eq_str role "model" then
        let* parts := get message "parts" (VList []) in
        let* items := iter parts in
        concat_parts items model_response
      else scan_messages rest model_response
  end.

(** Lines 334-343: [api_response["data"]["messages"]]. *)
Definition try_messages (api_response model_response : pyval) : outcome pyval :=
  if negb (truthy model_response) then
    let* has_data := contains "data" api_response in
    if has_data then
      let* data := getitem api_response "data" in
      let* has_messages := contains "messages" data in
      if has_messages then
        let* data := getitem api_response "data" in
        let* messages := getitem data "messages" in
        if truthy messages then
          let* n := len messages in
          if (0 <? n)%nat then
            let* backwards := reversed messages in
            scan_messages backwards model_response
          else Return model_response
        else Return model_response
      else Return model_response
    else Return model_response
  else Return model_response.

(** The four attempts in the order of the source. *)
Definition attempts (api_response : pyval) : outcome pyval :=
  let* model_response := try_candidates api_response (VStr "") in
  let* model_response := try_list api_response model_response in
  let* model_response := try_response api_response model_response in
  try_messages api_response model_response.

(** Lines 345-346. *)
Definition or_fallback (model_response : pyval) : pyval :=
  if negb (truthy model_response) then VStr FALLBACK else model_response.

Definition extract_reply (api_response : pyval) : outcome pyval :=
  let* model_response := attempts api_response in
  Return (or_fallback model_response).

End ReplyExtractor.

(** ** The response shapes, as the specification names them

    [candidates[0].content.parts[0].text], [item[0].content.parts[0].text],
    [response.parts[0].text] and [data.messages], read as paths through
    dictionaries and lists. *)

Module Shapes.

Definition at_key (k : string) (v : pyval) : option pyval :=
  match v with
  | VDict d => dict_get k d
  | _ => None
  end.

Definition first_item (v : pyval) : option pyval :=
  match v with
  | VList (x :: _) => Some x
  | _ => None
  end.

(** [.content.parts[0].text] *)
Definition item_text (item : pyval) : option pyval :=
  ((at_key "content" item ≫= at_key "parts") ≫= first_item) ≫= at_key "text".

(** Schema 1 *)
Definition candidates_text (response : pyval) : option pyval :=
  (at_key "candidates" response ≫= first_item) ≫= item_text.

(** Schema 2 *)
Definition list_text (response : pyval) : option pyval :=
  first_item response ≫= item_text.

(** Schema 3 *)
Definition response_text (response : pyval) : option pyval :=
  ((at_key "response" response ≫= at_key "parts") ≫= first_item) ≫= at_key "text".

(** Schema 4: [data.messages] *)
Definition messages (response : pyval) : option pyval :=
  at_key "data" response ≫= at_key "messages".

Definition role_is_model (message : list (string * pyval)) : bool :=
  match dict_get "role" message with
  | Some role => eq_str role "model"
  | None => false
  end.

(** A message that is a dictionary and is not the model's. *)
Definition other_message (m : pyval) : Prop :=
  ∃ d, m = VDict d ∧ role_is_model d = false.

(** A part that is a dictionary, with its text: the string under ["text"],
    or nothing when there is no such key. *)
Definition part_with_text (part : pyval) (text : string) : Prop :=
  ∃ d, part = VDict d ∧
       (dict_get "text" d = Some (VStr text) ∨ (dict_get "text" d = None ∧ text = "")).

End Shapes.

(** ** spiritual_api.py: what both copies of the file share

    The tables [RELIGIONS], [PHILOSOPHIES], [CATEGORIES], the constructor's
    [response_cache] and [cache_time], and [_get_cache_key] are the same text
    in [spiritual_api.py] and [masterversacharya/spiritual_api.py]. *)

Module Knowledge.

Definition RELIGIONS : list (string * Z) :=
  [("christianity", 1); ("islam", 2); ("hinduism", 3); ("buddhism", 4);
   ("judaism", 5); ("sikhism", 6); ("taoism", 7); ("jainism", 8);
   ("shintoism", 9); ("zoroastrianism", 10); ("bahai", 11);
   ("confucianism", 12); ("atheism", 13); ("agnosticism", 14);
   ("humanism", 15)].

Definition PHILOSOPHIES : list (string * Z) :=
  [("stoicism", 1); ("existentialism", 2); ("nihilism", 3); ("pragmatism", 4);
   ("utilitarianism", 5); ("hedonism", 6); ("rationalism", 7);
   ("empiricism", 8); ("idealism", 9); ("materialism", 10)].

Definition CATEGORIES : list (string * string) :=
  [("general", "General religious and spiritual information");
   ("rituals", "Religious rituals and practices");
   ("philosophy", "Philosophy and ethics");
   ("life", "Life guidance and spirituality");
   ("comparative", "Comparative religion and interfaith");
   ("nonreligious", "Non-religious and secular perspectives");
   ("history", "Historical and cultural context")].

(** What [generate_content] gives back: an object with a [text] attribute,
    an object without one (the caller takes [str(response)]), or an
    exception. *)
Inductive gen_response : Type :=
| WithText (text : string)
| WithoutText (repr : string)
| GenFails (e : pyexn).

(** The surroundings of a run: the readings of [time.time()], in the order
    they are taken, and the Generation Service, which may answer the n-th
    call as it likes. *)
Record env : Type := {
  clock : nat -> Q;
  model : string -> nat -> string -> gen_response
}.

Record cache_entry : Type := {
  data : pyval;
  timestamp : Q
}.

(** The state of one [SpiritualKnowledgeAPI] object together with the record
    of what it did: clock readings taken, prompts sent (with the model
    name), lines printed. *)
Record world : Type := {
  response_cache : gmap string cache_entry;
  clock_reads : nat;
  prompts : list (string * string);
  stdout : list string
}.

Definition set_cache (c : gmap string cache_entry) (w : world) : world :=
  {| response_cache := c; clock_reads := clock_reads w;
     prompts := prompts w; stdout := stdout w |}.

Definition new_world : world :=
  {| response_cache := ∅; clock_reads := 0%nat; prompts := []; stdout := [] |}.

(** [self.cache_time = 24 * 60 * 60] *)
Definition cache_time : Q := inject_Z (24 * 60 * 60).

Definition M (A : Type) : Type := stexn world A.

Definition print (line : string) : M unit :=
  fun w => (Return tt,
            {| response_cache := response_cache w; clock_reads := clock_reads w;
               prompts := prompts w; stdout := stdout w ++ [line] |}).

Definition error_payload (message : string) : pyval :=
  VDict [("status", VStr "error"); ("message", VStr message)].

(** A payload of the form [{"status": "error", ...}]. *)
Definition is_error_payload (v : pyval) : bool :=
  match v with
  | VDict d => match dict_get "status" d with
               | Some status => eq_str status "error"
               | None => false
               end
  | _ => false
  end.

(** [None] or a string, as a value. *)
Definition opt_str (o : option string) : pyval :=
  match o with
  | Some s => VStr s
  | None => VNone
  end.

(** [if o:] for an optional string *)
Definition given (o : option string) : bool := truthy (opt_str o).

(** [_get_cache_key], lines 71-75. *)
Definition _get_cache_key (query_type identifier : string) (category : option string) : string :=
  match category with
  | Some c => if truthy (VStr c) then query_type +:+ "-" +:+ identifier +:+ "-" +:+ c
              else query_type +:+ "-" +:+ identifier
  | None => query_type +:+ "-" +:+ identifier
  end.

Section WithEnv.
Variable E : env.

Definition time_time : M Q :=
  fun w => (Return (clock E (clock_reads w)),
            {| response_cache := response_cache w; clock_reads := S (clock_reads w);
               prompts := prompts w; stdout := stdout w |}).

(** [response = model.generate_content(prompt)] followed by
    [content = response.text if hasattr(response, 'text') else str(response)] *)
Definition generate_content (model_name prompt : string) : M string :=
  fun w =>
    let w' := {| response_cache := response_cache w; clock_reads := clock_reads w;
                 prompts := prompts w ++ [(model_name, prompt)]; stdout := stdout w |} in
    match model E model_name (length (prompts w)) prompt with
    | WithText text => (Return text, w')
    | WithoutText repr => (Return repr, w')
    | GenFails e => (Raise e, w')
    end.

(** [now - entry['timestamp'] < self.cache_time]: a float less a float,
    compared with the [int] 86400. *)
Definition fresh (now : Q) (entry : cache_entry) : bool :=
  negb (Qle_bool cache_time (float_sub now (timestamp entry))).

(** The read every operation starts with:
      [if cache_key in self.response_cache:
           cache_entry = self.response_cache[cache_key]
           if time.time() - cache_entry['timestamp'] < self.cache_time:
               return cache_entry['data']]
    The caller prints its line and returns on [Some]. *)
Definition cache_get (cache_key : string) : M (option pyval) :=
  fun w => match response_cache w !! cache_key with
           | Some cache_entry =>
               (do now <- time_time;
                if fresh now cache_entry then ret (Some (data cache_entry))
                else ret None) w
           | None => (Return None, w)
           end.

(** The write every operation ends with:
      [self.response_cache[cache_key] = {'data': result, 'timestamp': time.time()}] *)
Definition cache_put (cache_key : string) (result : pyval) : M unit :=
  do now <- time_time;
  fun w => (Return tt,
            set_cache (<[cache_key := {| data := result; timestamp := now |}]>
                         (response_cache w)) w).

(** The world after an operation that found nothing usable in the cache,
    sent [prompt] to [self_model] and stored [result]. *)
Definition after_fetch (self_model : string) (w0 : world)
    (cache_key prompt : string) (result : pyval) : world :=
  {| response_cache := <[cache_key := {| data := result;
                                         timestamp := clock E (clock_reads w0) |}]>
                         (response_cache w0);
     clock_reads := S (clock_reads w0);
     prompts := prompts w0 ++ [(self_model, prompt)];
     stdout := stdout w0 |}.

End WithEnv.

End Knowledge.

(** ** spiritual_api.py (the module [agent.py] imports) *)

Module SpiritualApi.
Import Knowledge.

Section Methods.
Variable E : env.
(** [self.model], by the name given to [genai.GenerativeModel]. *)
Variable self_model : string.

(** The [except] clause of [get_religious_information], lines 156-161.  It
    reads the local [religion], which line 95 rebinds. *)
Definition religion_failed (religion : string) (e : pyexn) : M pyval :=
  do _ <- print ("Error fetching information about " +:+ religion +:+ ": " +:+ str_of_exn e);
  ret (error_payload ("Error retrieving information: " +:+ str_of_exn e)).

(** Lines 113-126. *)
Definition religion_prompt (religion category : string) (specific_query : option string) : string :=
  let prompt := "Provide accurate, respectful, and educational information about "
                +:+ title religion +:+ " " in
  let prompt := match dict_get category CATEGORIES with
                | Some description => prompt +:+ "focusing on " +:+ description +:+ ". "
                | None => prompt +:+ "covering its core beliefs, practices, and principles. "
                end in
  let prompt := match specific_query with
                | Some q => if given specific_query
                            then prompt +:+ "Specifically address this question: " +:+ q
                            else prompt
                | None => prompt
                end in
  let prompt := prompt +:+ nl +:+ nl
                +:+ "Please structure your response with these sections when applicable:" +:+ nl in
  prompt +:+ "1. Core Beliefs" +:+ nl +:+ "2. Key Practices" +:+ nl +:+ "3. Sacred Texts" +:+ nl
         +:+ "4. Historical Context" +:+ nl +:+ "5. Modern Interpretation".

(** Lines 103-105. *)
Definition religion_cache_key (religion category : string) (specific_query : option string) : string :=
  let cache_key := _get_cache_key "religion" religion (Some category) in
  match specific_query with
  | Some q => if given specific_query then cache_key +:+ "-" +:+ str_prefix 50 q else cache_key
  | None => cache_key
  end.

(** Lines 138-146. *)
Definition religion_result (religion category : string) (specific_query : option string)
    (content : string) : pyval :=
  VDict [("religion", VStr religion);
         ("category", VStr category);
         ("query", opt_str specific_query);
         ("content", VStr content);
         ("sources", VList [VDict [("name", VStr "Generated by AI based on scholarly sources");
                                   ("reliability", VStr "high")]])].

(** [get_religious_information], lines 77-161. *)
Definition get_religious_information (religion category : string)
    (specific_query : option string) : M pyval :=
  if negb (truthy (VStr religion)) then
    religion_failed religion (ValueError "Religion identifier is required")
  else
    let religion := lower religion in
    catch
      (if negb (dict_mem religion RELIGIONS) then
         ret (error_payload ("Unknown religion: " +:+ religion
                             +:+ ". Available options are: "
                             +:+ join ", " (dict_keys RELIGIONS)))
       else
         let cache_key := religion_cache_key religion category specific_query in
         do cached <- cache_get E cache_key;
         match cached with
         | Some data =>
             do _ <- print ("Using cached information for " +:+ religion);
             ret data
         | None =>
             do content <- generate_content E self_model
                             (religion_prompt religion category specific_query);
             let result := religion_result religion category specific_query content in
             do _ <- cache_put E cache_key result;
             ret result
         end)
      (religion_failed religion).

(** The [except] clause of [get_philosophical_perspective], lines 236-241. *)
Definition philosophy_failed (philosophy : string) (e : pyexn) : M pyval :=
  do _ <- print ("Error fetching information about " +:+ philosophy +:+ ": " +:+ str_of_exn e);
  ret (error_payload ("Error retrieving information: " +:+ str_of_exn e)).

(** Lines 198-207. *)
Definition philosophy_prompt (philosophy : string) (topic : option string) : string :=
  let prompt := "Provide an educational explanation of " +:+ philosophy +:+ " philosophy " in
  let prompt := match topic with
                | Some t => if given topic
                            then prompt +:+ "specifically addressing: " +:+ t +:+ ". "
                            else prompt +:+ "covering its key principles, notable thinkers, and practical applications. "
                | None => prompt +:+ "covering its key principles, notable thinkers, and practical applications. "
                end in
  let prompt := prompt +:+ nl +:+ nl
                +:+ "Please structure your response with these sections:" +:+ nl in
  prompt +:+ "1. Core Principles" +:+ nl +:+ "2. Key Thinkers" +:+ nl +:+ "3. Historical Context" +:+ nl
         +:+ "4. Modern Relevance" +:+ nl +:+ "5. Practical Applications".

(** Lines 187-189. *)
Definition philosophy_cache_key (philosophy : string) (topic : option string) : string :=
  let cache_key := _get_cache_key "philosophy" philosophy None in
  match topic with
  | Some t => if given topic then cache_key +:+ "-" +:+ str_prefix 50 t else cache_key
  | None => cache_key
  end.

(** [get_philosophical_perspective], lines 163-241. *)
Definition get_philosophical_perspective (philosophy : string) (topic : option string) : M pyval :=
  if negb (truthy (VStr philosophy)) then
    philosophy_failed philosophy (ValueError "Philosophy identifier is required")
  else
    let philosophy := lower philosophy in
    catch
      (if negb (dict_mem philosophy PHILOSOPHIES) then
         ret (error_payload ("Unknown philosophy: " +:+ philosophy
                             +:+ ". Available options are: "
                             +:+ join ", " (dict_keys PHILOSOPHIES)))
       else
         let cache_key := philosophy_cache_key philosophy topic in
         do cached <- cache_get E cache_key;
         match cached with
         | Some data =>
             do _ <- print ("Using cached information for " +:+ philosophy);
             ret data
         | None =>
             do content <- generate_content E self_model (philosophy_prompt philosophy topic);
             let result :=
               VDict [("philosophy", VStr philosophy);
                      ("topic", opt_str topic);
                      ("content", VStr content);
                      ("sources", VList [VDict [("name", VStr "Generated by AI based on philosophical sources");
                                                ("reliability", VStr "high")]])] in
             do _ <- cache_put E cache_key result;
             ret result
         end)
      (philosophy_failed philosophy).

(** The [except] clause of [compare_religions], lines 328-333. *)
Definition comparison_failed (religion1 religion2 : string) (e : pyexn) : M pyval :=
  do _ <- print ("Error comparing " +:+ religion1 +:+ " and " +:+ religion2 +:+ ": " +:+ str_of_exn e);
  ret (error_payload ("Error performing comparison: " +:+ str_of_exn e)).

(** Line 277: the two identifiers are joined in the order of the arguments. *)
Definition comparison_cache_key (religion1 religion2 aspect : string) : string :=
  _get_cache_key "comparison" (religion1 +:+ "-" +:+ religion2) (Some aspect).

(** Lines 286-296. *)
Definition comparison_prompt (religion1 religion2 aspect : string) : string :=
  let prompt := "Provide a respectful, educational, and balanced comparison between "
                +:+ title religion1 +:+ " and " +:+ title religion2 +:+ " " in
  let prompt := if truthy (VStr aspect) && negb (String.eqb aspect "general")
                then prompt +:+ "focusing specifically on their " +:+ aspect +:+ ". "
                else prompt +:+ "covering their core beliefs, practices, and historical contexts. " in
  let prompt := prompt +:+ nl +:+ nl
                +:+ "Please structure your response with these sections:" +:+ nl in
  let prompt := prompt +:+ "1. " +:+ title religion1 +:+ " Overview" +:+ nl
                +:+ "2. " +:+ title religion2 +:+ " Overview" +:+ nl in
  prompt +:+ "3. Key Similarities" +:+ nl +:+ "4. Notable Differences" +:+ nl
         +:+ "5. Historical Interactions" +:+ nl +:+ "6. Modern Coexistence".

(** [compare_religions], lines 243-333. *)
Definition compare_religions (religion1 religion2 aspect : string) : M pyval :=
  if negb (truthy (VStr religion1)) || negb (truthy (VStr religion2)) then
    comparison_failed religion1 religion2
      (ValueError "Both religions are required for comparison")
  else
    let religion1 := lower religion1 in
    let religion2 := lower religion2 in
    catch
      (if negb (dict_mem religion1 RELIGIONS) then
         ret (error_payload ("Unknown religion: " +:+ religion1))
       else if negb (dict_mem religion2 RELIGIONS) then
         ret (error_payload ("Unknown religion: " +:+ religion2))
       else
         let cache_key := comparison_cache_key religion1 religion2 aspect in
         do cached <- cache_get E cache_key;
         match cached with
         | Some data =>
             do _ <- print ("Using cached comparison for " +:+ religion1 +:+ " and " +:+ religion2);
             ret data
         | None =>
             do content <- generate_content E self_model
                             (comparison_prompt religion1 religion2 aspect);
             let result :=
               VDict [("religions", VDict [("first", VStr religion1); ("second", VStr religion2)]);
                      ("aspect", VStr aspect);
                      ("comparison", VStr content);
                      ("sources", VList [VDict [("name", VStr "Generated by AI based on comparative religious studies");
                                                ("reliability", VStr "high")]])] in
             do _ <- cache_put E cache_key result;
             ret result
         end)
      (comparison_failed religion1 religion2).

(** The [except] clause of [get_meditation_guide], lines 493-498. *)
Definition meditation_failed (e : pyexn) : M pyval :=
  do _ <- print ("Error generating meditation guide: " +:+ str_of_exn e);
  ret (error_payload ("Error generating meditation guide: " +:+ str_of_exn e)).

(** Lines 439-441. *)
Definition meditation_cache_key (tradition : option string) (duration : Z) (focus : string) : string :=
  let cache_key := "meditation-" +:+ str_of_int duration +:+ "-" +:+ focus in
  match tradition with
  | Some t => if given tradition then cache_key +:+ "-" +:+ t else cache_key
  | None => cache_key
  end.

(** Lines 450-466. *)
Definition meditation_prompt (tradition : option string) (duration : Z) (focus : string) : string :=
  let prompt := "Create a " +:+ str_of_int duration +:+ "-minute guided meditation script " in
  let prompt := match tradition with
                | Some t =>
                    if given tradition then
                      if dict_mem t RELIGIONS then
                        prompt +:+ "based on " +:+ title t +:+ " practices "
                      else if dict_mem t PHILOSOPHIES then
                        prompt +:+ "inspired by " +:+ title t +:+ " philosophy "
                      else prompt
                    else prompt
                | None => prompt
                end in
  let prompt := prompt +:+ "focusing on " +:+ focus +:+ ". " in
  let prompt := prompt +:+ nl +:+ nl +:+ "Please structure the meditation guide with:" +:+ nl in
  let prompt := prompt +:+ "1. A brief introduction explaining the benefits and context" +:+ nl in
  let prompt := prompt +:+ "2. Preparation instructions" +:+ nl in
  let prompt := prompt +:+ "3. Step-by-step meditation guidance with appropriate timing" +:+ nl in
  let prompt := prompt +:+ "4. A gentle conclusion" +:+ nl in
  prompt +:+ "5. Suggestions for integrating the practice into daily life".

(** Lines 478-483 (and 453-458 of the packaged copy). *)
Definition meditation_result (tradition : option string) (duration : Z) (focus content : string) : pyval :=
  VDict [("tradition", opt_str tradition);
         ("duration", VInt duration);
         ("focus", VStr focus);
         ("guide", VStr content)].

(** [get_meditation_guide], lines 423-498: the body starts with the cache
    key; the duration is used as it comes. *)
Definition get_meditation_guide (tradition : option string) (duration : Z) (focus : string) : M pyval :=
  catch
    (let cache_key := meditation_cache_key tradition duration focus in
     do cached <- cache_get E cache_key;
     match cached with
     | Some data =>
         do _ <- print "Using cached meditation guide";
         ret data
     | None =>
         do content <- generate_content E self_model (meditation_prompt tradition duration focus);
         let result := meditation_result tradition duration focus content in
         do _ <- cache_put E cache_key result;
         ret result
     end)
    meditation_failed.

End Methods.

(** [genai.GenerativeModel('gemini-2.0-flash')], line 65. *)
Definition MODEL : string := "gemini-2.0-flash".

End SpiritualApi.

(** ** masterversacharya/spiritual_api.py (the packaged copy) *)

Module PkgSpiritualApi.
Import Knowledge.

(** [genai.GenerativeModel('gemini-1.5-pro')], line 65. *)
Definition MODEL : string := "gemini-1.5-pro".

(** Line 493. *)
Definition DEFAULT_RELIGIONS : list string :=
  ["christianity"; "islam"; "hinduism"; "buddhism"; "judaism"].

(** Lines 496-500: the loop that keeps the known names, in lower case. *)
Fixpoint valid_religions_of (religions : list string) : list string :=
  match religions with
  | [] => []
  | religion :: rest =>
      let rel_lower := lower religion in
      if dict_mem rel_lower RELIGIONS then rel_lower :: valid_religions_of rest
      else valid_religions_of rest
  end.

(** Lines 492-493: [if not religions or len(religions) < 2]. *)
Definition religions_or_default (religions : option (list string)) : list string :=
  match religions with
  | None => DEFAULT_RELIGIONS
  | Some l => if negb (truthy (VList (VStr <$> l))) || (length l <? 2)%nat
              then DEFAULT_RELIGIONS else l
  end.

(** Lines 509-510. *)
Definition interfaith_cache_key (topic : string) (valid_religions : list string) : string :=
  let religions_key := join "-" (sorted valid_religions) in
  _get_cache_key "interfaith" religions_key (Some (str_prefix 50 topic)).

(** [l[:-1]] *)
Definition all_but_last {A} (l : list A) : list A := removelast l.

Section Methods.
Variable E : env.

(** Lines 77-161 are, character for character, those of [spiritual_api.py]. *)
Definition get_religious_information : string -> string -> option string -> M pyval :=
  SpiritualApi.get_religious_information E MODEL.

(** The [except] clause of [get_meditation_guide], lines 468-473. *)
Definition meditation_failed (e : pyexn) : M pyval :=
  do _ <- print ("Error generating meditation guide: " +:+ str_of_exn e);
  ret (error_payload ("Error generating meditation guide: " +:+ str_of_exn e)).

(** Lines 414-418. *)
Definition meditation_cache_key (tradition : option string) (duration : Z) (focus : string) : string :=
  _get_cache_key "meditation" (focus +:+ "-" +:+ str_of_int duration)
    (Some (match tradition with
           | Some t => if given tradition then t else "general"
           | None => "general"
           end)).

(** Lines 427-441. *)
Definition meditation_prompt (tradition : option string) (duration : Z) (focus : string) : string :=
  let prompt := "Create a " +:+ str_of_int duration
                +:+ "-minute guided meditation script focused on " +:+ focus in
  let prompt := match tradition with
                | Some t =>
                    if given tradition then
                      if dict_mem (lower t) RELIGIONS || dict_mem (lower t) PHILOSOPHIES
                      then prompt +:+ " drawing from the " +:+ t +:+ " tradition"
                      else prompt +:+ " inspired by " +:+ t +:+ " principles"
                    else prompt
                | None => prompt
                end in
  let prompt := prompt +:+ "." +:+ nl +:+ nl +:+ "The meditation should include:" +:+ nl in
  let prompt := prompt +:+ "1. A brief introduction explaining the benefits" +:+ nl in
  let prompt := prompt +:+ "2. Opening instructions for posture and breathing" +:+ nl in
  let prompt := prompt +:+ "3. The main guided meditation with appropriate timing suggestions" +:+ nl in
  let prompt := prompt +:+ "4. A gentle closing" +:+ nl +:+ nl in
  prompt +:+ "The entire guided meditation should take approximately "
         +:+ str_of_int duration +:+ " minutes to complete when read at a moderate pace.".

(** [get_meditation_guide], lines 392-473: the body starts with the range
    check on [duration]. *)
Definition get_meditation_guide (tradition : option string) (duration : Z) (focus : string) : M pyval :=
  catch
    (if (duration <? 1) || (60 <? duration) then
       ret (error_payload "Duration must be between 1 and 60 minutes")
     else
       let cache_key := meditation_cache_key tradition duration focus in
       do cached <- cache_get E cache_key;
       match cached with
       | Some data =>
           do _ <- print "Using cached meditation guide";
           ret data
       | None =>
           do content <- generate_content E MODEL (meditation_prompt tradition duration focus);
           let result := SpiritualApi.meditation_result tradition duration focus content in
           do _ <- cache_put E cache_key result;
           ret result
       end)
    meditation_failed.

(** The [except] clause of [get_interfaith_dialogue], lines 552-557. *)
Definition interfaith_failed (e : pyexn) : M pyval :=
  do _ <- print ("Error generating interfaith dialogue: " +:+ str_of_exn e);
  ret (error_payload ("Error generating interfaith dialogue: " +:+ str_of_exn e)).

(** Lines 502-506. *)
Definition too_few_religions : pyval :=
  error_payload ("At least 2 valid religions are required. Available options are: "
                 +:+ join ", " (dict_keys RELIGIONS)).

(** Lines 519-526. *)
Definition interfaith_prompt (topic : string) (valid_religions : list string) : outcome string :=
  match last valid_religions with
  | None => Raise IndexError
  | Some final =>
      let religions_formatted :=
        join ", " (title <$> all_but_last valid_religions) +:+ " and " +:+ title final in
      let prompt := "Create an educational interfaith dialogue between representatives of "
                    +:+ religions_formatted +:+ " discussing the topic of " +:+ dq +:+ topic +:+ dq
                    +:+ "." +:+ nl +:+ nl in
      let prompt := prompt +:+ "Structure the dialogue as a respectful conversation where each perspective:" +:+ nl in
      let prompt := prompt +:+ "1. Explains their tradition's viewpoint on the topic" +:+ nl in
      let prompt := prompt +:+ "2. Highlights similarities with other traditions" +:+ nl in
      let prompt := prompt +:+ "3. Addresses areas of difference with respect" +:+ nl in
      let prompt := prompt +:+ "4. Seeks common ground where possible" +:+ nl +:+ nl in
      Return (prompt +:+ "The dialogue should be informative, nuanced, and reflect genuine theological positions without oversimplification.")
  end.

(** [get_interfaith_dialogue], lines 475-557. *)
Definition get_interfaith_dialogue (topic : string) (religions : option (list string)) : M pyval :=
  catch
    (if negb (truthy (VStr topic)) then
       raise (ValueError "Topic is required for interfaith dialogue")
     else
       let religions := religions_or_default religions in
       let valid_religions := valid_religions_of religions in
       if (length valid_religions <? 2)%nat then ret too_few_religions
       else
         let cache_key := interfaith_cache_key topic valid_religions in
         do cached <- cache_get E cache_key;
         match cached with
         | Some data =>
             do _ <- print "Using cached interfaith dialogue";
             ret data
         | None =>
             do prompt <- lift (interfaith_prompt topic valid_religions);
             do content <- generate_content E MODEL prompt;
             let result :=
               VDict [("topic", VStr topic);
                      ("religions", VList (VStr <$> valid_religions));
                      ("dialogue", VStr content)] in
             do _ <- cache_put E cache_key result;
             ret result
         end)
    interfaith_failed.

End Methods.
End PkgSpiritualApi.

(** ** agent.py: the tool functions

    [from spiritual_api import SpiritualKnowledgeAPI] binds the class of
    [spiritual_api.py], the file next to [agent.py];
    [spiritual_client] is one object of it. *)

Module Agent.
Import Knowledge.

Section Tools.
Variable E : env.

Definition failed (what : string) (e : pyexn) : M pyval :=
  ret (error_payload (what +:+ str_of_exn e)).

(** Lines 27-51. *)
Definition get_religious_information (religion category : string)
    (specific_query : option string) : M pyval :=
  catch (SpiritualApi.get_religious_information E SpiritualApi.MODEL religion category specific_query)
        (failed "Error fetching religious information: ").

(** Lines 53-75. *)
Definition get_philosophical_perspective (philosophy : string) (topic : option string) : M pyval :=
  catch (SpiritualApi.get_philosophical_perspective E SpiritualApi.MODEL philosophy topic)
        (failed "Error fetching philosophical perspective: ").

(** Lines 77-101. *)
Definition compare_religions (religion1 religion2 aspect : string) : M pyval :=
  catch (SpiritualApi.compare_religions E SpiritualApi.MODEL religion1 religion2 aspect)
        (failed "Error comparing religions: ").

(** Lines 127-151. *)
Definition get_meditation_guide (tradition : option string) (duration : Z) (focus : string) : M pyval :=
  catch (SpiritualApi.get_meditation_guide E SpiritualApi.MODEL tradition duration focus)
        (failed "Error generating meditation guide: ").

(** Lines 223-232. *)
Definition interfaith_prompt (topic : string) (valid_religions : list string) : outcome string :=
  match last valid_religions with
  | None => Raise IndexError
  | Some final =>
      let prompt := "Create an educational interfaith dialogue on the topic of '" +:+ topic
                    +:+ "' between representatives of " in
      let prompt := prompt +:+ join ", " (title <$> PkgSpiritualApi.all_but_last valid_religions) in
      let prompt := prompt +:+ ", and " +:+ title final +:+ ". " in
      let prompt := prompt +:+ nl +:+ nl +:+ "Please structure the dialogue to:" +:+ nl in
      let prompt := prompt +:+ "1. Respectfully represent each tradition's perspective" +:+ nl in
      let prompt := prompt +:+ "2. Highlight areas of agreement and disagreement" +:+ nl in
      let prompt := prompt +:+ "3. Demonstrate mutual respect and understanding" +:+ nl in
      Return (prompt +:+ "4. Conclude with insights gained from the dialogue")
  end.

(** Lines 216-220. *)
Definition too_few_religions : pyval :=
  error_payload "At least two valid religions are required for interfaith dialogue".

(** [get_interfaith_dialogue], lines 193-257.  The default list (line 208)
    and the validation loop (lines 211-214) are those of the packaged
    class; the model is a fresh ['gemini-1.5-pro'] object and nothing is
    cached. *)
Definition get_interfaith_dialogue (topic : string) (religions : option (list string)) : M pyval :=
  catch
    (let religions := PkgSpiritualApi.religions_or_default religions in
     let valid_religions := PkgSpiritualApi.valid_religions_of religions in
     if (length valid_religions <? 2)%nat then ret too_few_religions
     else
       do prompt <- lift (interfaith_prompt topic valid_religions);
       do content <- generate_content E "gemini-1.5-pro" prompt;
       ret (VDict [("status", VStr "success");
                   ("topic", VStr topic);
                   ("religions", VList (VStr <$> valid_religions));
                   ("dialogue", VStr content)]))
    (failed "Error generating interfaith dialogue: ").

End Tools.
End Agent.

(** ** telegram_bot.py: session store and handlers

    Each handler runs from its first line to its last without yielding to
    another handler between a read and a write of [user_sessions]: the
    [requests] calls are blocking.  Sending to Telegram is taken to
    succeed.  A call of [requests.post], [requests.get] or
    [requests.delete] is one [Http] event; what the HTTP library does
    beneath one call (line 33 sets [requests.adapters.DEFAULT_RETRIES = 2])
    is not part of this file. *)

Module TelegramBot.
Import ReplyExtractor.

(** [update.effective_user]: [str(id)] and [username]. *)
Record user : Type := {
  user_id : string;
  username : option string
}.

(** [update.effective_user.username or f"user{user_id}"] *)
Definition telegram_username (u : user) : string :=
  match username u with
  | Some name => if truthy (VStr name) then name else "user" +:+ user_id u
  | None => "user" +:+ user_id u
  end.

(** A value of [user_sessions]. *)
Record session : Type := {
  session_id : pyval;
  session_username : string
}.

(** The remote calls, by method and path under [BASE_URL], with the
    parts of the path and body that vary and the [timeout] argument. *)
Inductive request : Type :=
| PostSessions (username : string) (timeout : option Z)
    (* POST /apps/{APP_NAME}/users/{username}/sessions, json {"state": {}} *)
| GetSessions (username : string) (timeout : option Z)
    (* GET /apps/{APP_NAME}/users/{username}/sessions *)
| DeleteSession (username : string) (session_id : pyval) (timeout : option Z)
    (* DELETE /apps/{APP_NAME}/users/{username}/sessions/{session_id} *)
| PostRun (username : string) (session_id : pyval) (text : string) (timeout : option Z)
    (* POST /run, json {app_name, user_id, session_id, new_message} *)
| GetArtifacts (username : string) (session_id : pyval) (timeout : option Z).
    (* GET /apps/{APP_NAME}/users/{username}/sessions/{session_id}/artifacts *)

(** What a call gives back: an exception, or a response with its
    [status_code], [text] and the result of [response.json()]. *)
Inductive http_result : Type :=
| NetworkError (e : pyexn)
| Response (status_code : Z) (text : string) (json : outcome pyval).

Definition failed (r : http_result) : bool :=
  match r with
  | NetworkError _ => true
  | Response status_code _ _ => negb (status_code =? 200)
  end.

(** A row of the keyboard of [list_sessions]: the label
    [f"Session {display_id} ({created_at})"] and
    [callback_data=f"select_session:{session_id}"]. *)
Record button : Type := {
  display_id : pyval;
  created_at : pyval;
  callback_session : pyval
}.

(** The texts the handlers send, by the line that sends them. *)
Inductive message : Type :=
| Welcome                                  (* 42  *)
| Help                                     (* 60  *)
| SessionCreated (session_id : pyval)      (* 86  "New session created successfully!" *)
| CreateFailed (text : string)             (* 92  "Failed to create session. Error: {response.text}" *)
| CreateWentWrong                          (* 97  "Something went wrong while creating your session. ..." *)
| NoSessions                               (* 118 "You don't have any active sessions. ..." *)
| SessionList (keyboard : list button)     (* 135 "Your active sessions: ..." *)
| ListFailed (text : string)               (* 140 "Failed to retrieve sessions. Error: {response.text}" *)
| ListWentWrong                            (* 145 "Something went wrong while retrieving your sessions. ..." *)
| SessionSelected (session_id : string)    (* 169 "Selected session: ..." *)
| SessionDeleted                           (* 187 "Session deleted successfully!" *)
| DeleteFailed (text : string)             (* 189 "Failed to delete session. Error: {response.text}" *)
| DeleteWentWrong                          (* 194 "Something went wrong while deleting your session." *)
| NothingToDelete                          (* 198 "You don't have an active session to delete." *)
| DeletionCancelled                        (* 202 "Session deletion cancelled." *)
| NoActiveSession                          (* 210 "You don't have an active session. ..." *)
| ConfirmDeletion (session_id : pyval)     (* 226 "Are you sure ...", buttons confirm_delete / cancel_delete *)
| SessionAutoCreated (session_id : pyval)  (* 257 "I've created a new session for you automatically." *)
| AutoCreateFailed                         (* 262 "Failed to create a session. Please use /newsession ..." *)
| AutoCreateWentWrong                      (* 268 "Something went wrong. Please use /newsession ..." *)
| ModelResponse (model_response : pyval)   (* 360 *)
| RunFailed (text : string)                (* 362 "Failed to get a response. Error: {response.text} ..." *)
| RunWentWrong.                            (* 367 "Something went wrong while processing your message. ..." *)

(** The texts that report a failure: those the source starts with a cross
    mark or a warning sign. *)
Definition is_error_report (m : message) : bool :=
  match m with
  | CreateFailed _ | CreateWentWrong | ListFailed _ | ListWentWrong
  | DeleteFailed _ | DeleteWentWrong | AutoCreateFailed | AutoCreateWentWrong
  | RunFailed _ | RunWentWrong => true
  | _ => false
  end.

Inductive event : Type :=
| Http (r : request) (result : http_result)
| Send (m : message)
| AnswerCallback
| ChatActionTyping
| LogError (e : pyexn)
| LogInfo (v : pyval).

Definition is_http (ev : event) : bool :=
  match ev with Http _ _ => true | _ => false end.
Definition is_delete_call (ev : event) : bool :=
  match ev with Http (DeleteSession _ _ _) _ => true | _ => false end.
Definition is_failed_call (ev : event) : bool :=
  match ev with Http _ result => failed result | _ => false end.
Definition is_error_event (ev : event) : bool :=
  match ev with Send m => is_error_report m | _ => false end.

(** The module state: [user_sessions], and what the process has done. *)
Record bot : Type := {
  user_sessions : gmap string session;
  events : list event
}.

(** The Agent Run Service answers the n-th remote call as it likes. *)
Definition network : Type := nat -> request -> http_result.

Definition B (A : Type) : Type := stexn bot A.

Definition emit (ev : event) : B unit :=
  fun b => (Return tt, {| user_sessions := user_sessions b; events := events b ++ [ev] |}).

Definition send (m : message) : B unit := emit (Send m).

Definition read_sessions : B (gmap string session) :=
  fun b => (Return (user_sessions b), b).

Definition write_sessions (m : gmap string session) : B unit :=
  fun b => (Return tt, {| user_sessions := m; events := events b |}).

(** The suffix appended at line 357. *)
Definition ARTIFACT_NOTICE : string :=
  nl +:+ nl +:+ "📎 *Note:* There are artifacts available in this session that can't be displayed in Telegram.".

Section Handlers.
Variable net : network.

(** One call into [requests]: recorded, raising if the library raises. *)
Definition call (r : request) : B (Z * string * outcome pyval) :=
  fun b =>
    let result := net (length (List.filter is_http (events b))) r in
    let b' := {| user_sessions := user_sessions b; events := events b ++ [Http r result] |} in
    match result with
    | NetworkError e => (Raise e, b')
    | Response status_code text json => (Return (status_code, text, json), b')
    end.

(** [start], lines 39-46, and [help_command], lines 49-60. *)
Definition start (u : user) : B unit := send Welcome.
Definition help_command (u : user) : B unit := send Help.

(** [user_sessions[user_id] = {"session_id": ..., "telegram_username": ...}] *)
Definition bind_session (u : user) (sid : pyval) : B unit :=
  do sessions <- read_sessions;
  write_sessions (<[user_id u := {| session_id := sid;
                                    session_username := telegram_username u |}]> sessions).

(** [new_session], lines 63-99. *)
Definition new_session (u : user) : B unit :=
  catch
    (do response <- call (PostSessions (telegram_username u) (Some 10));
     let '(status_code, text, json) := response in
     if status_code =? 200 then
       do session_data <- lift json;
       do sid <- lift (get session_data "id" VNone);
       do _ <- bind_session u sid;
       send (SessionCreated sid)
     else send (CreateFailed text))
    (fun e => do _ <- emit (LogError e); send CreateWentWrong).

(** Lines 129-132: one row of the keyboard. *)
Definition session_button (session : pyval) : outcome button :=
  let* sid := get session "id" VNone in
  let* created := get session "created_at" (VStr "Unknown date") in
  let* n := len sid in
  let* shown := (if (10 <? n)%nat then
                   match sid with
                   | VStr s => Return (VStr (str_prefix 8 s +:+ "..."))
                   | _ => Raise TypeError
                   end
                 else Return sid) in
  Return {| display_id := shown; created_at := created; callback_session := sid |}.

Fixpoint session_buttons (sessions : list pyval) : outcome (list button) :=
  match sessions with
  | [] => Return []
  | session :: rest =>
      let* b := session_button session in
      let* bs := session_buttons rest in
      Return (b :: bs)
  end.

(** [list_sessions], lines 102-147. *)
Definition list_sessions (u : user) : B unit :=
  catch
    (do response <- call (GetSessions (telegram_username u) (Some 10));
     let '(status_code, text, json) := response in
     if status_code =? 200 then
       do sessions <- lift json;
       if negb (truthy sessions) then send NoSessions
       else
         do items <- lift (iter sessions);
         do keyboard <- lift (session_buttons items);
         send (SessionList keyboard)
     else send (ListFailed text))
    (fun e => do _ <- emit (LogError e); send ListWentWrong).

(** [data.split(":")[1]] *)
Definition second_field (data : string) : outcome string :=
  match split_char ":" data with
  | _ :: field :: _ => Return field
  | _ => Raise IndexError
  end.

(** The [confirm_delete] branch of [button_callback], lines 174-200. *)
Definition confirm_delete (u : user) : B unit :=
  do sessions <- read_sessions;
  match sessions !! user_id u with
  | Some s =>
      catch
        (do response <- call (DeleteSession (telegram_username u) (session_id s) (Some 10));
         let '(status_code, text, json) := response in
         if status_code =? 200 then
           do sessions <- read_sessions;
           do _ <- write_sessions (delete (user_id u) sessions);
           send SessionDeleted
         else send (DeleteFailed text))
        (fun e => do _ <- emit (LogError e); send DeleteWentWrong)
  | None => send NothingToDelete
  end.

(** [button_callback], lines 150-202. *)
Definition button_callback (u : user) (data : string) : B unit :=
  do _ <- emit AnswerCallback;
  if startswith data "select_session:" then
    do sid <- lift (second_field data);
    do _ <- bind_session u (VStr sid);
    send (SessionSelected sid)
  else if String.eqb data "confirm_delete" then confirm_delete u
  else if String.eqb data "cancel_delete" then send DeletionCancelled
  else ret tt.

(** [delete_session], lines 205-230. *)
Definition delete_session (u : user) : B unit :=
  do sessions <- read_sessions;
  match sessions !! user_id u with
  | None => send NoActiveSession
  | Some s => send (ConfirmDeletion (session_id s))
  end.

(** Lines 240-271 of [handle_message]: [true] when the handler goes on. *)
Definition ensure_session (u : user) : B bool :=
  do sessions <- read_sessions;
  match sessions !! user_id u with
  | Some _ => ret true
  | None =>
      catch
        (do response <- call (PostSessions (telegram_username u) None);
         let '(status_code, text, json) := response in
         if status_code =? 200 then
           do session_data <- lift json;
           do sid <- lift (get session_data "id" VNone);
           do _ <- bind_session u sid;
           do _ <- send (SessionAutoCreated sid);
           ret true
         else
           do _ <- send AutoCreateFailed;
           ret false)
        (fun e => do _ <- emit (LogError e);
                  do _ <- send AutoCreateWentWrong;
                  ret false)
  end.

(** Lines 349-357: the notice about artifacts. *)
Definition with_artifact_notice (u : user) (sid model_response : pyval) : B pyval :=
  do response <- call (GetArtifacts (telegram_username u) sid (Some 10));
  let '(status_code, text, json) := response in
  if status_code =? 200 then
    do artifacts <- lift json;
    if truthy artifacts then
      do n <- lift (len artifacts);
      if (0 <? n)%nat then lift (iadd model_response (VStr ARTIFACT_NOTICE))
      else ret model_response
    else ret model_response
  else ret model_response.

(** [handle_message], lines 233-369. *)
Definition handle_message (u : user) (user_message : string) : B unit :=
  do go_on <- ensure_session u;
  if go_on then
    do sessions <- read_sessions;
    match sessions !! user_id u with
    | None => raise KeyError
    | Some s =>
        let sid := session_id s in
        do _ <- emit ChatActionTyping;
        catch
          (do response <- call (PostRun (telegram_username u) sid user_message (Some 15));
           let '(status_code, text, json) := response in
           if status_code =? 200 then
             do api_response <- lift json;
             do _ <- emit (LogInfo api_response);
             do model_response <- lift (extract_reply api_response);
             do model_response <- with_artifact_notice u sid model_response;
             send (ModelResponse model_response)
           else send (RunFailed text))
          (fun e => do _ <- emit (LogError e); send RunWentWrong)
    end
  else ret tt.

(** What a user can do, and [main]'s table of handlers, lines 391-401. *)
Inductive action : Type :=
| CmdStart
| CmdHelp
| CmdNewSession
| CmdListSessions
| CmdDeleteSession
| PressButton (data : string)
| TextMessage (text : string).

Definition dispatch (u : user) (a : action) : B unit :=
  match a with
  | CmdStart => start u
  | CmdHelp => help_command u
  | CmdNewSession => new_session u
  | CmdListSessions => list_sessions u
  | CmdDeleteSession => delete_session u
  | PressButton data => button_callback u data
  | TextMessage text => handle_message u text
  end.

End Handlers.

(** The events a run adds to those already recorded. *)
Definition new_events (before after : bot) : list event :=
  drop (length (events before)) (events after).

(** What one action of one user does to the bot. *)
Definition run (net : network) (u : user) (a : action) (b : bot) : bot :=
  snd (dispatch net u a b).

(** *** Reading a list of events *)

(** No remote call is made after one that failed. *)
Fixpoint no_call_after_failure (evs : list event) : bool :=
  match evs with
  | [] => true
  | ev :: rest =>
      (if is_failed_call ev then negb (existsb is_http rest) else true)
      && no_call_after_failure rest
  end.

Inductive endpoint : Type :=
| CreateSessionEndpoint
| ListSessionsEndpoint
| DeleteSessionEndpoint
| RunEndpoint
| ArtifactsEndpoint.

Definition endpoint_of (r : request) : endpoint :=
  match r with
  | PostSessions _ _ => CreateSessionEndpoint
  | GetSessions _ _ => ListSessionsEndpoint
  | DeleteSession _ _ _ => DeleteSessionEndpoint
  | PostRun _ _ _ _ => RunEndpoint
  | GetArtifacts _ _ _ => ArtifactsEndpoint
  end.

(** The endpoints called, in order. *)
Fixpoint endpoints_called (evs : list event) : list endpoint :=
  match evs with
  | [] => []
  | Http r _ :: rest => endpoint_of r :: endpoints_called rest
  | _ :: rest => endpoints_called rest
  end.

(** The number of failure reports sent to the user. *)
Definition error_reports (evs : list event) : nat :=
  length (List.filter is_error_event evs).

(** A failed call that is not the fetch of the artifacts. *)
Definition is_failed_main_call (ev : event) : bool :=
  match ev with
  | Http (GetArtifacts _ _ _) _ => false
  | Http _ result => failed result
  | _ => false
  end.

End TelegramBot.

(** ** The remaining operations

    The operations of the three files that come after the ones above:
    the daily insight of [spiritual_api.py]; the philosophical
    perspective, the comparison, the daily insight and the practice guide
    of the packaged copy; the remaining tools of [agent.py].
    [datetime.now().strftime("%Y-%m-%d")] is an input: the operation is
    given the date string of each reading it takes. *)

Module PyText.

(** The characters [str.strip()] removes, among the 7-bit ones. *)
Definition is_space (c : ascii) : bool :=
  let n := nat_of_ascii c in
  ((9 <=? n)%nat && (n <=? 13)%nat) || ((28 <=? n)%nat && (n <=? 32)%nat).

Fixpoint lstrip (s : string) : string :=
  match s with
  | EmptyString => EmptyString
  | String c s' => if is_space c then lstrip s' else s
  end.

Definition rstrip (s : string) : string := String.rev (lstrip (String.rev s)).

(** [s.strip()] *)
Definition strip (s : string) : string := rstrip (lstrip s).

(** [s.split('\n')] *)
Definition lines (s : string) : list string := split_char (ascii_of_nat 10) s.

End PyText.

Module SpiritualApiDaily.
Import Knowledge PyText.

(** Lines 349-355 of [spiritual_api.py]. *)
Definition daily_cache_key (today : string) (tradition theme : option string) : string :=
  let cache_key := "daily-" +:+ today in
  let cache_key := match tradition with
                   | Some t => if given tradition then cache_key +:+ "-" +:+ t else cache_key
                   | None => cache_key
                   end in
  match theme with
  | Some t => if given theme then cache_key +:+ "-" +:+ t else cache_key
  | None => cache_key
  end.

(** Lines 366-381. *)
Definition daily_prompt (tradition theme : option string) : string :=
  let prompt := "Provide an inspiring and thought-provoking spiritual insight for today " in
  let prompt := match tradition with
                | Some t =>
                    if given tradition then
                      if dict_mem t RELIGIONS then
                        prompt +:+ "from the " +:+ title t +:+ " tradition "
                      else if dict_mem t PHILOSOPHIES then
                        prompt +:+ "from " +:+ title t +:+ " philosophy "
                      else prompt
                    else prompt
                | None => prompt
                end in
  let prompt := match theme with
                | Some t =>
                    if given theme
                    then prompt +:+ "focusing on the theme of " +:+ t +:+ ". "
                    else prompt +:+ "that encourages reflection and personal growth. "
                | None => prompt +:+ "that encourages reflection and personal growth. "
                end in
  let prompt := prompt +:+ nl +:+ nl +:+ "Please include:" +:+ nl in
  prompt +:+ "1. A meaningful quote or saying" +:+ nl +:+ "2. The source or attribution" +:+ nl
         +:+ "3. A brief reflection (2-3 sentences)" +:+ nl
         +:+ "4. A simple practice or contemplation for the day".

(** Lines 393-397: the first line that, stripped, starts with a double
    quote; [""] when there is none. *)
Fixpoint first_quoted (content_lines : list string) : string :=
  match content_lines with
  | [] => ""
  | line :: rest =>
      if startswith (strip line) dq || startswith (strip line) dq then strip line
      else first_quoted rest
  end.

(** Lines 400-406. *)
Definition daily_result (today : string) (tradition theme : option string)
    (content : string) : pyval :=
  VDict [("date", VStr today);
         ("tradition", opt_str tradition);
         ("theme", opt_str theme);
         ("quote", VStr (first_quoted (lines content)));
         ("full_insight", VStr content)].

(** The [except] clause, lines 416-421. *)
Definition daily_failed (e : pyexn) : M pyval :=
  do _ <- print ("Error generating daily insight: " +:+ str_of_exn e);
  ret (error_payload ("Error generating daily insight: " +:+ str_of_exn e)).

Definition read_cache : M (gmap string cache_entry) :=
  fun w => (Return (response_cache w), w).

Section Method.
Variable E : env.
Variable self_model : string.

(** Lines 366-414: ask the Generation Service and store the answer. *)
Definition generate_daily (today : string) (tradition theme : option string) : M pyval :=
  do content <- generate_content E self_model (daily_prompt tradition theme);
  let result := daily_result today tradition theme content in
  do _ <- cache_put E (daily_cache_key today tradition theme) result;
  ret result.

(** [get_daily_spiritual_insight], lines 335-421.  [today] is the date read
    at line 349, [today_at_check] the date read at line 361, which is read
    only when the key is in the cache. *)
Definition get_daily_spiritual_insight (today today_at_check : string)
    (tradition theme : option string) : M pyval :=
  catch
    (let cache_key := daily_cache_key today tradition theme in
     do cache <- read_cache;
     match cache !! cache_key with
     | Some cache_entry =>
         if String.eqb today_at_check today then
           do _ <- print "Using cached daily insight";
           ret (data cache_entry)
         else generate_daily today tradition theme
     | None => generate_daily today tradition theme
     end)
    daily_failed.

End Method.
End SpiritualApiDaily.

Module PkgSpiritualApiRest.
Import Knowledge.

Section Methods.
Variable E : env.

(** The [except] clause of [get_philosophical_perspective], lines 236-241. *)
Definition philosophy_failed (philosophy : string) (e : pyexn) : M pyval :=
  do _ <- print ("Error fetching philosophical perspective on " +:+ philosophy +:+ ": " +:+ str_of_exn e);
  ret (error_payload ("Error retrieving philosophical perspective: " +:+ str_of_exn e)).

(** Lines 198-207. *)
Definition philosophy_prompt (philosophy : string) (topic : option string) : string :=
  let prompt := "Provide an educational explanation of " +:+ philosophy +:+ " philosophy " in
  let prompt := match topic with
                | Some t => if given topic
                            then prompt +:+ "specifically addressing: " +:+ t +:+ ". "
                            else prompt +:+ "covering its key principles, major thinkers, and philosophical implications. "
                | None => prompt +:+ "covering its key principles, major thinkers, and philosophical implications. "
                end in
  let prompt := prompt +:+ nl +:+ nl
                +:+ "Please structure your response with these sections when applicable:" +:+ nl in
  prompt +:+ "1. Core Principles" +:+ nl +:+ "2. Major Thinkers" +:+ nl +:+ "3. Historical Context" +:+ nl
         +:+ "4. Modern Relevance" +:+ nl +:+ "5. Criticism".

(** [get_philosophical_perspective], lines 163-241. *)
Definition get_philosophical_perspective (philosophy : string) (topic : option string) : M pyval :=
  if negb (truthy (VStr philosophy)) then
    philosophy_failed philosophy (ValueError "Philosophy identifier is required")
  else
    let philosophy := lower philosophy in
    catch
      (if negb (dict_mem philosophy PHILOSOPHIES) then
         ret (error_payload ("Unknown philosophy: " +:+ philosophy
                             +:+ ". Available options are: "
                             +:+ join ", " (dict_keys PHILOSOPHIES)))
       else
         let cache_key := SpiritualApi.philosophy_cache_key philosophy topic in
         do cached <- cache_get E cache_key;
         match cached with
         | Some data =>
             do _ <- print ("Using cached information for " +:+ philosophy);
             ret data
         | None =>
             do content <- generate_content E PkgSpiritualApi.MODEL (philosophy_prompt philosophy topic);
             let result :=
               VDict [("philosophy", VStr philosophy);
                      ("topic", opt_str topic);
                      ("content", VStr content);
                      ("sources", VList [VDict [("name", VStr "Generated by AI based on philosophical resources");
                                                ("reliability", VStr "high")]])] in
             do _ <- cache_put E cache_key result;
             ret result
         end)
      (philosophy_failed philosophy).

(** The [except] clause of [compare_religions], lines 327-332. *)
Definition comparison_failed (religion1 religion2 : string) (e : pyexn) : M pyval :=
  do _ <- print ("Error comparing " +:+ religion1 +:+ " and " +:+ religion2 +:+ ": " +:+ str_of_exn e);
  ret (error_payload ("Error generating comparison: " +:+ str_of_exn e)).

(** Lines 285-297. *)
Definition comparison_prompt (religion1 religion2 aspect : string) : string :=
  let prompt := "Compare and contrast " +:+ title religion1 +:+ " and " +:+ title religion2 +:+ " " in
  let prompt := if truthy (VStr aspect) && negb (String.eqb (lower aspect) "general")
                then prompt +:+ "specifically focusing on their " +:+ aspect +:+ ". "
                else prompt +:+ "comparing their beliefs, practices, historical development, and core principles. " in
  let prompt := prompt +:+ nl +:+ nl
                +:+ "Please structure your response with these sections:" +:+ nl in
  let prompt := prompt +:+ "1. Key Similarities between " +:+ title religion1
                +:+ " and " +:+ title religion2 +:+ nl in
  let prompt := prompt +:+ "2. Important Differences between " +:+ title religion1
                +:+ " and " +:+ title religion2 +:+ nl in
  let prompt := prompt +:+ "3. Historical Interactions" +:+ nl in
  prompt +:+ "4. Modern Interpretations and Dialogue".

Definition unknown_religion (religion : string) : pyval :=
  error_payload ("Unknown religion: " +:+ religion +:+ ". Available options are: "
                 +:+ join ", " (dict_keys RELIGIONS)).

(** [compare_religions], lines 243-332. *)
Definition compare_religions (religion1 religion2 aspect : string) : M pyval :=
  if negb (truthy (VStr religion1)) || negb (truthy (VStr religion2)) then
    comparison_failed religion1 religion2
      (ValueError "Both religion identifiers are required")
  else
    let religion1 := lower religion1 in
    let religion2 := lower religion2 in
    catch
      (if negb (dict_mem religion1 RELIGIONS) then ret (unknown_religion religion1)
       else if negb (dict_mem religion2 RELIGIONS) then ret (unknown_religion religion2)
       else
         let cache_key := SpiritualApi.comparison_cache_key religion1 religion2 aspect in
         do cached <- cache_get E cache_key;
         match cached with
         | Some data =>
             do _ <- print ("Using cached comparison for " +:+ religion1 +:+ " and " +:+ religion2);
             ret data
         | None =>
             do content <- generate_content E PkgSpiritualApi.MODEL
                             (comparison_prompt religion1 religion2 aspect);
             let result :=
               VDict [("religion1", VStr religion1);
                      ("religion2", VStr religion2);
                      ("aspect", VStr aspect);
                      ("content", VStr content);
                      ("sources", VList [VDict [("name", VStr "Generated by AI based on comparative religion studies");
                                                ("reliability", VStr "high")]])] in
             do _ <- cache_put E cache_key result;
             ret result
         end)
      (comparison_failed religion1 religion2).

(** Lines 352-364. *)
Definition daily_prompt (today : string) (tradition theme : option string) : string :=
  let prompt := "Generate an inspiring spiritual insight for today (" +:+ today +:+ ")" in
  let prompt := match tradition with
                | Some t =>
                    if given tradition then
                      if dict_mem (lower t) RELIGIONS || dict_mem (lower t) PHILOSOPHIES
                      then prompt +:+ " from the " +:+ t +:+ " tradition"
                      else prompt +:+ " inspired by " +:+ t +:+ " wisdom"
                    else prompt
                | None => prompt
                end in
  let prompt := match theme with
                | Some t => if given theme
                            then prompt +:+ " focused on the theme of " +:+ t
                            else prompt
                | None => prompt
                end in
  prompt +:+ ". Include a brief reflection and a suggestion for applying this wisdom.".

(** [get_daily_spiritual_insight], lines 334-390: nothing is read from or
    written to the cache. *)
Definition get_daily_spiritual_insight (today : string) (tradition theme : option string) : M pyval :=
  catch
    (do content <- generate_content E PkgSpiritualApi.MODEL (daily_prompt today tradition theme);
     ret (VDict [("date", VStr today);
                 ("tradition", opt_str tradition);
                 ("theme", opt_str theme);
                 ("insight", VStr content)]))
    SpiritualApiDaily.daily_failed.

(** Lines 577-579 (and 272-274 of [agent.py]). *)
Definition valid_levels : list string := ["beginner"; "intermediate"; "advanced"].

Definition normalize_level (level : string) : string :=
  if negb (existsb (String.eqb (lower level)) valid_levels) then "beginner" else level.

(** Lines 582-586. *)
Definition practice_cache_key (practice : string) (tradition : option string) (level : string) : string :=
  _get_cache_key "practice" (lower practice +:+ "-" +:+ lower level)
    (Some (match tradition with
           | Some t => if given tradition then lower t else "general"
           | None => "general"
           end)).

(** Lines 595-609. *)
Definition practice_prompt (practice : string) (tradition : option string) (level : string) : string :=
  let prompt := "Create a " +:+ level +:+ " level guide for the spiritual practice of " +:+ practice in
  let prompt := match tradition with
                | Some t =>
                    if given tradition then
                      if dict_mem (lower t) RELIGIONS || dict_mem (lower t) PHILOSOPHIES
                      then prompt +:+ " within the " +:+ t +:+ " tradition"
                      else prompt +:+ " inspired by " +:+ t +:+ " teachings"
                    else prompt
                | None => prompt
                end in
  let prompt := prompt +:+ "." +:+ nl +:+ nl +:+ "The guide should include:" +:+ nl in
  let prompt := prompt +:+ "1. A brief introduction explaining the spiritual significance" +:+ nl in
  let prompt := prompt +:+ "2. Step-by-step instructions appropriate for a " +:+ level +:+ nl in
  let prompt := prompt +:+ "3. Common challenges and how to overcome them" +:+ nl in
  let prompt := prompt +:+ "4. Benefits of regular practice" +:+ nl in
  prompt +:+ "5. Suggestions for deepening the practice over time".

(** Lines 621-626. *)
Definition practice_result (practice : string) (tradition : option string)
    (level content : string) : pyval :=
  VDict [("practice", VStr practice);
         ("tradition", opt_str tradition);
         ("level", VStr level);
         ("guide", VStr content)].

(** The [except] clause, lines 636-641. *)
Definition practice_failed (e : pyexn) : M pyval :=
  do _ <- print ("Error generating practice guide: " +:+ str_of_exn e);
  ret (error_payload ("Error generating practice guide: " +:+ str_of_exn e)).

(** [get_spiritual_practice_guide], lines 559-641. *)
Definition get_spiritual_practice_guide (practice : string) (tradition : option string)
    (level : string) : M pyval :=
  catch
    (if negb (truthy (VStr practice)) then raise (ValueError "Practice type is required")
     else
       let level := normalize_level level in
       let cache_key := practice_cache_key practice tradition level in
       do cached <- cache_get E cache_key;
       match cached with
       | Some data =>
           do _ <- print "Using cached practice guide";
           ret data
       | None =>
           do content <- generate_content E PkgSpiritualApi.MODEL
                           (practice_prompt practice tradition level);
           let result := practice_result practice tradition level content in
           do _ <- cache_put E cache_key result;
           ret result
       end)
    practice_failed.

End Methods.
End PkgSpiritualApiRest.

Module AgentRest.
Import Knowledge.

(** [get_available_religions], lines 153-171. *)
Definition get_available_religions : pyval :=
  VDict [("status", VStr "success");
         ("religions", VList (VStr <$> dict_keys RELIGIONS))].

(** [get_available_philosophies], lines 173-191. *)
Definition get_available_philosophies : pyval :=
  VDict [("status", VStr "success");
         ("philosophies", VList (VStr <$> dict_keys PHILOSOPHIES))].

Section Tools.
Variable E : env.

(** [get_daily_spiritual_insight], lines 103-125. *)
Definition get_daily_spiritual_insight (today today_at_check : string)
    (tradition theme : option string) : M pyval :=
  catch (SpiritualApiDaily.get_daily_spiritual_insight E SpiritualApi.MODEL
           today today_at_check tradition theme)
        (Agent.failed "Error generating daily insight: ").

(** Lines 277-291. *)
Definition practice_prompt (practice : string) (tradition : option string) (level : string) : string :=
  let prompt := "Create a " +:+ level +:+ " level guide for the spiritual practice of "
                +:+ practice +:+ " " in
  let prompt := match tradition with
                | Some t =>
                    if given tradition
                    then prompt +:+ "in the " +:+ title t +:+ " tradition. "
                    else prompt +:+ "that is accessible to people of various spiritual backgrounds. "
                | None => prompt +:+ "that is accessible to people of various spiritual backgrounds. "
                end in
  let prompt := prompt +:+ nl +:+ nl +:+ "Please structure the guide with:" +:+ nl in
  let prompt := prompt +:+ "1. Introduction and benefits" +:+ nl in
  let prompt := prompt +:+ "2. Historical and spiritual context" +:+ nl in
  let prompt := prompt +:+ "3. Step-by-step instructions" +:+ nl in
  let prompt := prompt +:+ "4. Common challenges and solutions" +:+ nl in
  let prompt := prompt +:+ "5. Tips for deepening the practice" +:+ nl in
  prompt +:+ "6. Resources for further learning".

(** [get_spiritual_practice_guide], lines 259-317: no check of [practice],
    no cache. *)
Definition get_spiritual_practice_guide (practice : string) (tradition : option string)
    (level : string) : M pyval :=
  catch
    (let level := PkgSpiritualApiRest.normalize_level level in
     do content <- generate_content E "gemini-1.5-pro" (practice_prompt practice tradition level);
     ret (VDict [("status", VStr "success");
                 ("practice", VStr practice);
                 ("tradition", opt_str tradition);
                 ("level", VStr level);
                 ("guide", VStr content)]))
    (Agent.failed "Error generating practice guide: ").

End Tools.
End AgentRest.

(** ** Every operation, by name

    The five methods of the class of [spiritual_api.py] that are modelled
    here, the seven of the packaged class, and the nine tools that
    [agent.py] hands to the agent ([tools=[...]], lines 346-356). *)

Module Surface.
Import Knowledge.

Inductive query : Type :=
(* spiritual_api.py *)
| ApiReligion (religion category : string) (specific_query : option string)
| ApiPhilosophy (philosophy : string) (topic : option string)
| ApiComparison (religion1 religion2 aspect : string)
| ApiDaily (today today_at_check : string) (tradition theme : option string)
| ApiMeditation (tradition : option string) (duration : Z) (focus : string)
(* masterversacharya/spiritual_api.py *)
| PkgReligion (religion category : string) (specific_query : option string)
| PkgPhilosophy (philosophy : string) (topic : option string)
| PkgComparison (religion1 religion2 aspect : string)
| PkgDaily (today : string) (tradition theme : option string)
| PkgMeditation (tradition : option string) (duration : Z) (focus : string)
| PkgInterfaith (topic : string) (religions : option (list string))
| PkgPractice (practice : string) (tradition : option string) (level : string)
(* agent.py *)
| ToolReligion (religion category : string) (specific_query : option string)
| ToolPhilosophy (philosophy : string) (topic : option string)
| ToolComparison (religion1 religion2 aspect : string)
| ToolDaily (today today_at_check : string) (tradition theme : option string)
| ToolMeditation (tradition : option string) (duration : Z) (focus : string)
| ToolAvailableReligions
| ToolAvailablePhilosophies
| ToolInterfaith (topic : string) (religions : option (list string))
| ToolPractice (practice : string) (tradition : option string) (level : string).

Definition answer (E : env) (q : query) : M pyval :=
  match q with
  | ApiReligion r c s => SpiritualApi.get_religious_information E SpiritualApi.MODEL r c s
  | ApiPhilosophy p t => SpiritualApi.get_philosophical_perspective E SpiritualApi.MODEL p t
  | ApiComparison r1 r2 a => SpiritualApi.compare_religions E SpiritualApi.MODEL r1 r2 a
  | ApiDaily d d' t th =>
      SpiritualApiDaily.get_daily_spiritual_insight E SpiritualApi.MODEL d d' t th
  | ApiMeditation t d f => SpiritualApi.get_meditation_guide E SpiritualApi.MODEL t d f
  | PkgReligion r c s => PkgSpiritualApi.get_religious_information E r c s
  | PkgPhilosophy p t => PkgSpiritualApiRest.get_philosophical_perspective E p t
  | PkgComparison r1 r2 a => PkgSpiritualApiRest.compare_religions E r1 r2 a
  | PkgDaily d t th => PkgSpiritualApiRest.get_daily_spiritual_insight E d t th
  | PkgMeditation t d f => PkgSpiritualApi.get_meditation_guide E t d f
  | PkgInterfaith t rs => PkgSpiritualApi.get_interfaith_dialogue E t rs
  | PkgPractice p t l => PkgSpiritualApiRest.get_spiritual_practice_guide E p t l
  | ToolReligion r c s => Agent.get_religious_information E r c s
  | ToolPhilosophy p t => Agent.get_philosophical_perspective E p t
  | ToolComparison r1 r2 a => Agent.compare_religions E r1 r2 a
  | ToolDaily d d' t th => AgentRest.get_daily_spiritual_insight E d d' t th
  | ToolMeditation t d f => Agent.get_meditation_guide E t d f
  | ToolAvailableReligions => ret AgentRest.get_available_religions
  | ToolAvailablePhilosophies => ret AgentRest.get_available_philosophies
  | ToolInterfaith t rs => Agent.get_interfaith_dialogue E t rs
  | ToolPractice p t l => AgentRest.get_spiritual_practice_guide E p t l
  end.

End Surface.

(** ** Concrete surroundings used in the examples *)

Module Examples.
Import Knowledge.

(** A clock that stands still and a Generation Service that answers
    every prompt with the same text. *)
Definition E_answers : env :=
  {| clock := fun _ => 0%Q; model := fun _ _ _ => WithText "generated" |}.

(** A clock that advances by a day at every reading. *)
Definition E_a_day_per_reading : env :=
  {| clock := fun n => inject_Z (Z.of_nat n * 86400);
     model := fun _ _ _ => WithText "generated" |}.


(** Alice, who has picked session ["s1"]. *)
Definition alice : TelegramBot.user :=
  {| TelegramBot.user_id := "42"; TelegramBot.username := Some "alice" |}.

Definition alice_bound : TelegramBot.bot :=
  {| TelegramBot.user_sessions :=
       {[ "42" := {| TelegramBot.session_id := VStr "s1";
                     TelegramBot.session_username := "alice" |} ]};
     TelegramBot.events := [] |}.

Definition nobody_bound : TelegramBot.bot :=
  {| TelegramBot.user_sessions := ∅; TelegramBot.events := [] |}.

(** A reply in the primary shape that also carries the legacy shape. *)
Definition both_shapes : pyval :=
  VDict [("candidates",
          VList [VDict [("content",
                         VDict [("parts", VList [VDict [("text", VStr "primary")]]);
                                ("role", VStr "model")])]]);
         ("response", VDict [("parts", VList [VDict [("text", VStr "legacy")]])])].

(** A service whose [/run] succeeds with [reply] and whose every other
    endpoint answers 500. *)
Definition net_run_only (reply : pyval) : TelegramBot.network :=
  fun _ r =>
    match r with
    | TelegramBot.PostRun _ _ _ _ => TelegramBot.Response 200 "" (Return reply)
    | _ => TelegramBot.Response 500 "Internal Server Error" (Raise JSONDecodeError)
    end.

(** A service that is down: every call raises. *)
Definition net_down : TelegramBot.network :=
  fun _ _ => TelegramBot.NetworkError (RuntimeError "Connection refused").

(** A service that answers every call with status 500. *)
Definition net_500 : TelegramBot.network :=
  fun _ _ => TelegramBot.Response 500 "Internal Server Error" (Raise JSONDecodeError).

(** Bob, who has picked session ["s2"], beside Alice. *)
Definition bob : TelegramBot.user :=
  {| TelegramBot.user_id := "77"; TelegramBot.username := None |}.

Definition both_bound : TelegramBot.bot :=
  {| TelegramBot.user_sessions :=
       <["77" := {| TelegramBot.session_id := VStr "s2";
                    TelegramBot.session_username := "user77" |}]>
         (TelegramBot.user_sessions alice_bound);
     TelegramBot.events := [] |}.

(** A service that creates session ["s9"], deletes what it is asked to,
    runs the agent with [reply] and lists [artifacts]. *)
Definition net_up (reply artifacts : pyval) : TelegramBot.network :=
  fun _ r =>
    match r with
    | TelegramBot.PostSessions _ _ =>
        TelegramBot.Response 200 "" (Return (VDict [("id", VStr "s9")]))
    | TelegramBot.GetSessions _ _ =>
        TelegramBot.Response 200 "" (Return (VList [VDict [("id", VStr "s9")]]))
    | TelegramBot.DeleteSession _ _ _ => TelegramBot.Response 200 "" (Return VNone)
    | TelegramBot.PostRun _ _ _ _ => TelegramBot.Response 200 "" (Return reply)
    | TelegramBot.GetArtifacts _ _ _ => TelegramBot.Response 200 "" (Return artifacts)
    end.

(** A conversation whose last model message has no text, after one that
    had. *)
Definition silent_last_turn : pyval :=
  VDict [("data",
          VDict [("messages",
                  VList [VDict [("role", VStr "model");
                                ("parts", VList [VDict [("text", VStr "earlier answer")]])];
                         VDict [("role", VStr "user");
                                ("parts", VList [VDict [("text", VStr "and now?")]])];
                         VDict [("role", VStr "model"); ("parts", VList [])]])])].


End Examples.

(** * Properties *)

(** ** Strings *)

Section StringFacts.

Lemma to_lower_idem c : to_lower (to_lower c) = to_lower c.
Proof.
  unfold to_lower. destruct (is_upper c) eqn:Hc; [|by rewrite Hc].
  destruct c as [[] [] [] [] [] [] [] []]; vm_compute in Hc; try discriminate; reflexivity.
Qed.

Lemma lower_idem s : lower (lower s) = lower s.
Proof. induction s as [|c s IH]; simpl; [done|]. by rewrite to_lower_idem, IH. Qed.

Lemma lower_truthy s : truthy (VStr (lower s)) = truthy (VStr s).
Proof. by destruct s. Qed.

End StringFacts.

(** ** Cache keys *)

Section CacheKeys.
Import Knowledge PkgSpiritualApi.

Lemma sorted_Permutation (l1 l2 : list string) : l1 ≡ₚ l2 → sorted l1 = sorted l2.
Proof.
  intros Hp. unfold sorted.
  apply (StronglySorted_unique String.le).
  - apply StronglySorted_merge_sort; apply _.
  - apply StronglySorted_merge_sort; apply _.
  - by rewrite !merge_sort_Permutation.
Qed.

Lemma valid_religions_of_Permutation (l1 l2 : list string) :
  l1 ≡ₚ l2 → valid_religions_of l1 ≡ₚ valid_religions_of l2.
Proof.
  induction 1 as [|x l1 l2 _ IH|x y l|l1 l2 l3 _ IH1 _ IH2]; simpl.
  - done.
  - destruct (dict_mem (lower x) RELIGIONS); by rewrite IH.
  - destruct (dict_mem (lower x) RELIGIONS), (dict_mem (lower y) RELIGIONS);
      try done. apply perm_swap.
  - by etrans.
Qed.

Lemma religions_or_default_Permutation (l1 l2 : list string) :
  l1 ≡ₚ l2 → religions_or_default (Some l1) ≡ₚ religions_or_default (Some l2).
Proof.
  intros Hp. unfold religions_or_default.
  rewrite <- (Permutation_length Hp).
  destruct l1 as [|x1 l1], l2 as [|x2 l2]; simpl; try done.
  - symmetry in Hp. by apply Permutation_nil_cons in Hp.
  - by destruct (S (length l1) <? 2)%nat.
Qed.

(** C1, for the interfaith dialogue: whatever the order in which the
    participants are given, the cache key of [get_interfaith_dialogue] is the
    same, because the valid names are sorted before they are joined. *)
Theorem interfaith_cache_key_order_independent
    (topic : string) (religions1 religions2 : list string) :
  religions1 ≡ₚ religions2 →
  interfaith_cache_key topic (valid_religions_of (religions_or_default (Some religions1)))
  = interfaith_cache_key topic (valid_religions_of (religions_or_default (Some religions2))).
Proof.
  intros Hp. unfold interfaith_cache_key.
  f_equal. f_equal. apply sorted_Permutation.
  by apply valid_religions_of_Permutation, religions_or_default_Permutation.
Qed.

Lemma interfaith_cache_key_order_independent_witness :
  interfaith_cache_key "ethics"
    (valid_religions_of (religions_or_default (Some ["Islam"; "buddhism"; "judaism"])))
  = interfaith_cache_key "ethics"
    (valid_religions_of (religions_or_default (Some ["judaism"; "Islam"; "buddhism"]))).
Proof.
  apply (interfaith_cache_key_order_independent "ethics"
           ["Islam"; "buddhism"; "judaism"] ["judaism"; "Islam"; "buddhism"]).
  symmetry. exact (Permutation_cons_append ["Islam"; "buddhism"] "judaism").
Defined.

(** C1, for the comparison: the key of [compare_religions] joins the two
    names in the order of the arguments, so swapping them changes it. *)
Lemma comparison_cache_key_order_dependent :
  SpiritualApi.comparison_cache_key "christianity" "islam" "general"
  ≠ SpiritualApi.comparison_cache_key "islam" "christianity" "general".
Proof. vm_compute. discriminate. Qed.

End CacheKeys.

(** ** Floating point *)

Section Floats.
Import Py.
Local Open Scope Q_scope.












End Floats.

(** ** The TTL cache *)

Section Cache.
Import Knowledge.
Variable E : env.

(** An entry is fresh when the float difference is below [cache_time]. *)
Lemma fresh_iff now entry :
  fresh now entry = true ↔ (float_sub now (timestamp entry) < cache_time)%Q.
Proof.
  unfold fresh. rewrite negb_true_iff, <- not_true_iff_false, Qle_bool_iff.
  split; [apply Qnot_le_lt | apply Qlt_not_le].
Qed.





End Cache.


(** ** Knowledge queries *)

Section KnowledgeQueries.
Import Knowledge.
Variable E : env.

Lemma valid_religion_nonempty r : dict_mem (lower r) RELIGIONS = true → truthy (VStr r) = true.
Proof. by destruct r. Qed.


End KnowledgeQueries.

Section KnowledgeExamples.
Import Knowledge Examples.



End KnowledgeExamples.

(** ** Interfaith dialogue and meditation guide *)

Section Validation.
Import Knowledge.
Variable E : env.

Lemma valid_defaults :
  PkgSpiritualApi.valid_religions_of PkgSpiritualApi.DEFAULT_RELIGIONS
  = PkgSpiritualApi.DEFAULT_RELIGIONS.
Proof. reflexivity. Qed.

Lemma few_religions_defaulted (religions : list string) :
  (length religions < 2)%nat →
  PkgSpiritualApi.religions_or_default (Some religions) = PkgSpiritualApi.DEFAULT_RELIGIONS.
Proof.
  intros Hlen. unfold PkgSpiritualApi.religions_or_default.
  destruct religions as [|r1 [|r2 rest]]; simpl in *; try done. lia.
Qed.

Lemma many_religions_kept (religions : list string) :
  (2 ≤ length religions)%nat →
  PkgSpiritualApi.religions_or_default (Some religions) = religions.
Proof.
  intros Hlen. unfold PkgSpiritualApi.religions_or_default.
  destruct religions as [|r1 [|r2 rest]]; simpl in *; try done; lia.
Qed.

(** C5, as the code has it.  A list of fewer than two participants is not
    filtered: it is replaced by the five default religions, all of them
    known, and the call does what the call without a list does.  The
    error payload about too few valid religions is returned, with nothing
    else done, when the list has at least two entries, written in 7-bit
    characters, and fewer than two of them are known. *)
Theorem interfaith_participants_validation
    (topic : string) (religions : list string) (w : world) :
  ((length religions < 2)%nat →
   PkgSpiritualApi.get_interfaith_dialogue E topic (Some religions) w
     = PkgSpiritualApi.get_interfaith_dialogue E topic None w
   ∧ Agent.get_interfaith_dialogue E topic (Some religions) w
     = Agent.get_interfaith_dialogue E topic None w
   ∧ PkgSpiritualApi.valid_religions_of (PkgSpiritualApi.religions_or_default (Some religions))
     = PkgSpiritualApi.DEFAULT_RELIGIONS)
  ∧ ((2 ≤ length religions)%nat →
     forallb ascii_only religions = true →
     (length (PkgSpiritualApi.valid_religions_of religions) < 2)%nat →
     (truthy (VStr topic) = true →
      PkgSpiritualApi.get_interfaith_dialogue E topic (Some religions) w
      = (Return PkgSpiritualApi.too_few_religions, w))
     ∧ Agent.get_interfaith_dialogue E topic (Some religions) w
       = (Return Agent.too_few_religions, w)).
Proof.
  split.
  - intros Hlen.
    unfold PkgSpiritualApi.get_interfaith_dialogue, Agent.get_interfaith_dialogue.
    by rewrite (few_religions_defaulted _ Hlen).
  - intros Hlen _ Hvalid.
    apply Nat.ltb_lt in Hvalid.
    unfold PkgSpiritualApi.get_interfaith_dialogue, Agent.get_interfaith_dialogue.
    rewrite (many_religions_kept _ Hlen). split.
    + intros ->. unfold catch. cbv beta iota zeta delta [negb]. by rewrite Hvalid.
    + unfold catch. cbv beta iota zeta. by rewrite Hvalid.
Qed.


End Validation.

Section ValidationExamples.
Import Knowledge Examples.

Lemma interfaith_participants_validation_witness :
  PkgSpiritualApi.get_interfaith_dialogue E_answers "ethics" (Some ["atlantis"]) new_world
    = PkgSpiritualApi.get_interfaith_dialogue E_answers "ethics" None new_world
  ∧ PkgSpiritualApi.get_interfaith_dialogue E_answers "ethics"
      (Some ["atlantis"; "lemuria"]) new_world
    = (Return PkgSpiritualApi.too_few_religions, new_world)
  ∧ Agent.get_interfaith_dialogue E_answers "ethics" (Some ["atlantis"; "Islam"]) new_world
    = (Return Agent.too_few_religions, new_world).
Proof.
  split; [|split].
  - apply (proj1 (interfaith_participants_validation E_answers "ethics"
                    ["atlantis"] new_world)).
    simpl. lia.
  - apply (proj2 (interfaith_participants_validation E_answers "ethics"
                    ["atlantis"; "lemuria"] new_world)).
    + simpl. lia.
    + reflexivity.
    + simpl. lia.
    + reflexivity.
  - apply (proj2 (interfaith_participants_validation E_answers "ethics"
                    ["atlantis"; "Islam"] new_world)).
    + simpl. lia.
    + reflexivity.
    + simpl. lia.
Defined.

(** C5, as it is written, fails: with the topic ["ethics"] and the single
    participant ["atlantis"] the dialogue is generated, among the five
    default religions, and a success payload comes back. *)
Lemma single_unknown_participant_answered :
  fst (PkgSpiritualApi.get_interfaith_dialogue E_answers "ethics" (Some ["atlantis"]) new_world)
    = Return (VDict [("topic", VStr "ethics");
                     ("religions", VList (VStr <$> PkgSpiritualApi.DEFAULT_RELIGIONS));
                     ("dialogue", VStr "generated")])
  ∧ fst (Agent.get_interfaith_dialogue E_answers "ethics" (Some ["atlantis"]) new_world)
    = Return (VDict [("status", VStr "success");
                     ("topic", VStr "ethics");
                     ("religions", VList (VStr <$> PkgSpiritualApi.DEFAULT_RELIGIONS));
                     ("dialogue", VStr "generated")])
  ∧ is_error_payload
      (VDict [("topic", VStr "ethics");
              ("religions", VList (VStr <$> PkgSpiritualApi.DEFAULT_RELIGIONS));
              ("dialogue", VStr "generated")]) = false
  ∧ is_error_payload
      (VDict [("status", VStr "success");
              ("topic", VStr "ethics");
              ("religions", VList (VStr <$> PkgSpiritualApi.DEFAULT_RELIGIONS));
              ("dialogue", VStr "generated")]) = false.
Proof. repeat split; vm_compute; reflexivity. Qed.

(** C6 at durations 0 and 61, in [spiritual_api.py] and through the tool
    of [agent.py], which calls it: no range check is made, a guide for a
    0-minute (61-minute) meditation is asked of the Generation Service and
    returned in a success payload.  The packaged copy refuses both. *)
Theorem meditation_duration_unchecked :
  fst (SpiritualApi.get_meditation_guide E_answers SpiritualApi.MODEL
         None 0 "mindfulness" new_world)
    = Return (SpiritualApi.meditation_result None 0 "mindfulness" "generated")
  ∧ fst (SpiritualApi.get_meditation_guide E_answers SpiritualApi.MODEL
           None 61 "mindfulness" new_world)
    = Return (SpiritualApi.meditation_result None 61 "mindfulness" "generated")
  ∧ fst (Agent.get_meditation_guide E_answers None 0 "mindfulness" new_world)
    = Return (SpiritualApi.meditation_result None 0 "mindfulness" "generated")
  ∧ fst (Agent.get_meditation_guide E_answers None 61 "mindfulness" new_world)
    = Return (SpiritualApi.meditation_result None 61 "mindfulness" "generated")
  ∧ is_error_payload (SpiritualApi.meditation_result None 0 "mindfulness" "generated") = false
  ∧ is_error_payload (SpiritualApi.meditation_result None 61 "mindfulness" "generated") = false
  ∧ fst (PkgSpiritualApi.get_meditation_guide E_answers None 0 "mindfulness" new_world)
    = Return (error_payload "Duration must be between 1 and 60 minutes")
  ∧ fst (PkgSpiritualApi.get_meditation_guide E_answers None 61 "mindfulness" new_world)
    = Return (error_payload "Duration must be between 1 and 60 minutes")
  ∧ fst (PkgSpiritualApi.get_meditation_guide E_answers None 30 "mindfulness" new_world)
    = Return (SpiritualApi.meditation_result None 30 "mindfulness" "generated").
Proof. repeat split; vm_compute; reflexivity. Qed.

End ValidationExamples.

(** ** The reply extractor *)

Section Extractor.
Import ReplyExtractor Shapes.

Ltac go := cbv beta iota delta [obind].

Lemma append_assoc (a b c : string) : (a +:+ b) +:+ c = a +:+ (b +:+ c).
Proof.
  induction a as [|x a IH]; [done|].
  change (String x ((a +:+ b) +:+ c) = String x (a +:+ (b +:+ c))). by rewrite IH.
Qed.

Lemma append_empty_r (a : string) : a +:+ "" = a.
Proof.
  induction a as [|x a IH]; [done|].
  change (String x (a +:+ "") = String x a). by rewrite IH.
Qed.

Lemma nonempty_truthy (t : string) : t ≠ "" → truthy (VStr t) = true.
Proof. intros Ht. simpl. destruct (String.eqb_spec t ""); done. Qed.

Lemma at_key_Some k v x :
  at_key k v = Some x → ∃ d, v = VDict d ∧ dict_get k d = Some x.
Proof. destruct v; simpl; try done. eauto. Qed.

Lemma first_item_Some v x : first_item v = Some x → ∃ l, v = VList (x :: l).
Proof. destruct v as [| | | | |[|y l]|]; simpl; try done. intros [= ->]. eauto. Qed.

Lemma contains_key k d x : dict_get k d = Some x → contains k (VDict d) = Return true.
Proof. intros H. simpl. unfold dict_mem. by rewrite H. Qed.

Lemma getitem_key k d x : dict_get k d = Some x → getitem (VDict d) k = Return x.
Proof. intros H. simpl. by rewrite H. Qed.

Lemma text_of_parts_found parts p v mr :
  first_item parts = Some p → at_key "text" p = Some v →
  text_of_parts parts mr = Return v.
Proof.
  intros [l ->]%first_item_Some (d & -> & Hd)%at_key_Some.
  unfold text_of_parts.
  cbv beta iota delta [obind truthy len getitem0 Nat.ltb Nat.leb length].
  rewrite (contains_key _ _ _ Hd). go. by apply getitem_key.
Qed.

Lemma text_of_item_found item v mr :
  item_text item = Some v → text_of_item item mr = Return v.
Proof.
  unfold item_text. intros Hv.
  apply bind_Some in Hv as (p & Hv & Htext).
  apply bind_Some in Hv as (parts & Hv & Hp).
  apply bind_Some in Hv as (content & Hcontent & Hparts).
  apply at_key_Some in Hcontent as (d & -> & Hd).
  apply at_key_Some in Hparts as (cd & -> & Hcd).
  unfold text_of_item.
  rewrite (contains_key _ _ _ Hd). go.
  rewrite (getitem_key _ _ _ Hd). go.
  rewrite (contains_key _ _ _ Hcd). go.
  rewrite (getitem_key _ _ _ Hcd). go.
  by apply text_of_parts_found with p.
Qed.

Lemma try_candidates_found r v mr :
  candidates_text r = Some v → try_candidates r mr = Return v.
Proof.
  unfold candidates_text. intros Hv.
  apply bind_Some in Hv as (item & Hv & Htext).
  apply bind_Some in Hv as (candidates & Hcand & Hfirst).
  apply at_key_Some in Hcand as (d & -> & Hd).
  apply first_item_Some in Hfirst as [l ->].
  unfold try_candidates.
  rewrite (contains_key _ _ _ Hd). go.
  rewrite (getitem_key _ _ _ Hd).
  cbv beta iota delta [obind len getitem0 Nat.ltb Nat.leb length].
  by apply text_of_item_found.
Qed.

Lemma try_list_found r v mr :
  truthy mr = false → list_text r = Some v → try_list r mr = Return v.
Proof.
  unfold list_text. intros Hmr Hv.
  apply bind_Some in Hv as (item & Hfirst & Htext).
  apply first_item_Some in Hfirst as [l ->].
  unfold try_list. rewrite Hmr.
  cbv beta iota delta [obind negb getitem0 Nat.ltb Nat.leb length].
  by apply text_of_item_found.
Qed.

Lemma try_response_found r v mr :
  truthy mr = false → response_text r = Some v → try_response r mr = Return v.
Proof.
  unfold response_text. intros Hmr Hv.
  apply bind_Some in Hv as (p & Hv & Htext).
  apply bind_Some in Hv as (parts & Hv & Hp).
  apply bind_Some in Hv as (response & Hresp & Hparts).
  apply at_key_Some in Hresp as (d & -> & Hd).
  apply at_key_Some in Hparts as (rd & -> & Hrd).
  unfold try_response. rewrite Hmr. cbv beta iota delta [negb].
  rewrite (contains_key _ _ _ Hd). go.
  rewrite (getitem_key _ _ _ Hd). go.
  unfold dict_mem. rewrite Hrd.
  rewrite (getitem_key _ _ _ Hrd). go.
  by apply text_of_parts_found with p.
Qed.

Lemma try_list_skipped r mr : truthy mr = true → try_list r mr = Return mr.
Proof. intros H. unfold try_list. by rewrite H. Qed.

Lemma try_response_skipped r mr : truthy mr = true → try_response r mr = Return mr.
Proof. intros H. unfold try_response. by rewrite H. Qed.

Lemma try_messages_skipped r mr : truthy mr = true → try_messages r mr = Return mr.
Proof. intros H. unfold try_messages. by rewrite H. Qed.

Lemma try_list_on_dict d mr : try_list (VDict d) mr = Return mr.
Proof. unfold try_list. by destruct (negb (truthy mr)). Qed.

Lemma or_fallback_truthy m : truthy (or_fallback m) = true.
Proof. unfold or_fallback. by destruct (truthy m) eqn:Hm. Qed.

Lemma or_fallback_id m : truthy m = true → or_fallback m = m.
Proof. intros H. unfold or_fallback. by rewrite H. Qed.

Lemma concat_parts_texts ps texts acc :
  Forall2 part_with_text ps texts →
  concat_parts ps (VStr acc) = Return (VStr (acc +:+ String.concat "" texts)).
Proof.
  intros Hps. revert acc.
  induction Hps as [|p t ps texts (d & -> & Hd) _ IH]; intros acc.
  - simpl. by rewrite append_empty_r.
  - assert (String.concat "" (t :: texts) = t +:+ String.concat "" texts) as ->.
    { destruct texts; simpl; [by rewrite append_empty_r|done]. }
    simpl concat_parts. unfold dict_mem.
    destruct Hd as [Hd|[Hd ->]]; rewrite Hd; go.
    + rewrite IH. by rewrite append_assoc.
    + by rewrite IH.
Qed.

Lemma scan_messages_skips others rest mr :
  Forall other_message others →
  scan_messages (others ++ rest) mr = scan_messages rest mr.
Proof.
  induction 1 as [|m others (d & -> & Hd) _ IH]; [done|].
  simpl. unfold role_is_model in Hd.
  destruct (dict_get "role" d) as [role|]; go.
  - by rewrite Hd.
  - done.
Qed.

Lemma try_messages_found r before d after ps texts :
  messages r = Some (VList (before ++ VDict d :: after)) →
  Forall other_message after →
  role_is_model d = true →
  dict_get "parts" d = Some (VList ps) →
  Forall2 part_with_text ps texts →
  try_messages r (VStr "") = Return (VStr (String.concat "" texts)).
Proof.
  unfold messages. intros Hm Hafter Hrole Hparts Hps.
  apply bind_Some in Hm as (data & Hdata & Hm).
  apply at_key_Some in Hdata as (rd & -> & Hrd).
  apply at_key_Some in Hm as (dd & -> & Hdd).
  unfold try_messages. change (negb (truthy (VStr ""))) with true. cbv beta iota.
  rewrite (contains_key _ _ _ Hrd). go.
  rewrite (getitem_key _ _ _ Hrd). go.
  rewrite (contains_key _ _ _ Hdd). go.
  rewrite (getitem_key _ _ _ Hdd). go.
  assert (truthy (VList (before ++ VDict d :: after)) = true) as ->.
  { by destruct before. }
  cbv beta iota delta [len obind].
  assert ((0 <? length (before ++ VDict d :: after))%nat = true) as ->.
  { by destruct before. }
  cbv beta iota delta [reversed obind].
  rewrite rev_app_distr. simpl rev. rewrite <- app_assoc.
  rewrite scan_messages_skips.
  - simpl. unfold role_is_model in Hrole.
    destruct (dict_get "role" d) as [role|]; [|done]. go. rewrite Hrole.
    rewrite Hparts. cbv beta iota delta [obind iter].
    by rewrite (concat_parts_texts _ _ "" Hps).
  - by apply List.Forall_rev.
Qed.

(** C3: the four shapes are tried in the order candidates, list, response,
    data.messages, and the first text that is not empty is the reply:
    - a text under [candidates[0].content.parts[0].text] is returned whatever
      else the response holds, a [response.parts[0].text] included;
    - when the candidates gave nothing, the text of the first item of a
      list-shaped response is returned;
    - when the candidates gave nothing, a text under
      [response.parts[0].text] is returned, whatever [data.messages] holds;
    - when candidates and response left the reply empty, the messages are
      read from the end up to the first one whose role is ["model"], and
      the texts of its parts, joined, are the reply. *)
Theorem extraction_order (r : pyval) (t : string) :
  t ≠ "" →
  (candidates_text r = Some (VStr t) → extract_reply r = Return (VStr t))
  ∧ (∀ m, try_candidates r (VStr "") = Return m → truthy m = false →
          list_text r = Some (VStr t) → extract_reply r = Return (VStr t))
  ∧ (∀ m, try_candidates r (VStr "") = Return m → truthy m = false →
          response_text r = Some (VStr t) → extract_reply r = Return (VStr t))
  ∧ (∀ before d after ps texts,
       try_candidates r (VStr "") = Return (VStr "") →
       try_response r (VStr "") = Return (VStr "") →
       messages r = Some (VList (before ++ VDict d :: after)) →
       Forall other_message after →
       role_is_model d = true →
       dict_get "parts" d = Some (VList ps) →
       Forall2 part_with_text ps texts →
       String.concat "" texts = t →
       extract_reply r = Return (VStr t)).
Proof.
  intros Ht. pose proof (nonempty_truthy t Ht) as Htrue.
  repeat split.
  - intros H1. unfold extract_reply, attempts.
    rewrite (try_candidates_found _ _ _ H1). go.
    rewrite try_list_skipped by done. go.
    rewrite try_response_skipped by done. go.
    rewrite try_messages_skipped by done. go.
    by rewrite or_fallback_id.
  - intros m H1 Hm H2. unfold extract_reply, attempts.
    rewrite H1. go.
    rewrite (try_list_found _ _ _ Hm H2). go.
    rewrite try_response_skipped by done. go.
    rewrite try_messages_skipped by done. go.
    by rewrite or_fallback_id.
  - intros m H1 Hm H3. unfold extract_reply, attempts.
    rewrite H1. go.
    assert (∃ d, r = VDict d) as [d ->].
    { unfold response_text in H3. apply bind_Some in H3 as (? & H3 & _).
      apply bind_Some in H3 as (? & H3 & _). apply bind_Some in H3 as (? & H3 & _).
      apply at_key_Some in H3 as (d & -> & _). eauto. }
    rewrite try_list_on_dict. go.
    rewrite (try_response_found _ _ _ Hm H3). go.
    rewrite try_messages_skipped by done. go.
    by rewrite or_fallback_id.
  - intros before d after ps texts H1 H3 Hmsgs Hafter Hrole Hparts Hps Hcat.
    unfold extract_reply, attempts.
    rewrite H1. go.
    assert (∃ rd, r = VDict rd) as [rd ->].
    { unfold messages in Hmsgs. apply bind_Some in Hmsgs as (? & Hm & _).
      apply at_key_Some in Hm as (rd & -> & _). eauto. }
    rewrite try_list_on_dict. go.
    rewrite H3. go.
    rewrite (try_messages_found _ _ _ _ _ _ Hmsgs Hafter Hrole Hparts Hps).
    go. rewrite Hcat. by rewrite or_fallback_id.
Qed.

End Extractor.

Section ExtractorExamples.
Import ReplyExtractor Shapes Examples.

Lemma extraction_order_witness :
  extract_reply both_shapes = Return (VStr "primary")
  ∧ extract_reply
      (VDict [("response", VDict [("parts", VList [VDict [("text", VStr "legacy")]])]);
              ("data", VDict [("messages",
                               VList [VDict [("role", VStr "model");
                                             ("parts", VList [VDict [("text", VStr "last")]])]])])])
    = Return (VStr "legacy")
  ∧ extract_reply
      (VDict [("data",
               VDict [("messages",
                       VList [VDict [("role", VStr "model");
                                     ("parts", VList [VDict [("text", VStr "old")]])];
                              VDict [("role", VStr "model");
                                     ("parts", VList [VDict [("text", VStr "new ")];
                                                      VDict [("text", VStr "reply")]])];
                              VDict [("role", VStr "user")]])])])
    = Return (VStr "new reply").
Proof.
  split; [|split].
  - apply (proj1 (extraction_order both_shapes "primary" ltac:(discriminate))).
    reflexivity.
  - eapply (proj1 (proj2 (proj2 (extraction_order _ "legacy" ltac:(discriminate)))));
      reflexivity.
  - eapply (proj2 (proj2 (proj2 (extraction_order _ "new reply" ltac:(discriminate))))
              [VDict [("role", VStr "model");
                      ("parts", VList [VDict [("text", VStr "old")]])]]
              [("role", VStr "model");
               ("parts", VList [VDict [("text", VStr "new ")]; VDict [("text", VStr "reply")]])]
              [VDict [("role", VStr "user")]]
              [VDict [("text", VStr "new ")]; VDict [("text", VStr "reply")]]
              ["new "; "reply"]).
    + reflexivity.
    + reflexivity.
    + reflexivity.
    + constructor; [|constructor]. exists [("role", VStr "user")]. by split.
    + reflexivity.
    + reflexivity.
    + constructor; [|constructor; [|constructor]].
      * exists [("text", VStr "new ")]. split; [reflexivity|by left].
      * exists [("text", VStr "reply")]. split; [reflexivity|by left].
    + reflexivity.
Defined.

(** C2, as it is written, fails: a response that is JSON [null], or whose
    ["candidates"] is a number, makes the extraction raise [TypeError], and a
    text that is a number is returned as that number, not as a string. *)
Lemma extraction_raises :
  extract_reply VNone = Raise TypeError
  ∧ extract_reply (VDict [("candidates", VInt 5)]) = Raise TypeError
  ∧ extract_reply
      (VDict [("candidates",
               VList [VDict [("content", VDict [("parts", VList [VDict [("text", VInt 5)]])])]])])
    = Return (VInt 5).
Proof. repeat split; reflexivity. Qed.

End ExtractorExamples.

(** ** The handlers *)

Section Handlers.
Import ReplyExtractor TelegramBot.
Variable net : network.

Lemma new_events_app b sessions l :
  new_events b {| user_sessions := sessions; events := events b ++ l |} = l.
Proof. unfold new_events. cbn [events]. by rewrite drop_app_length. Qed.

(** Run a handler: open it up and follow every branch it can take. *)
Ltac open_handlers :=
  unfold run, dispatch, start, help_command, new_session, list_sessions,
    button_callback, confirm_delete, delete_session, handle_message,
    ensure_session, with_artifact_notice, bind_session, read_sessions,
    write_sessions, send, emit, call, catch, bind, lift, ret, raise;
  cbn [fst snd user_sessions events].

Ltac branch :=
  match goal with
  | |- context [match ?x with _ => _ end] =>
      lazymatch x with
      | context [match _ with _ => _ end] => fail
      | _ => destruct x eqn:?
      end
  end; cbn [fst snd user_sessions events].

Ltac all_branches := open_handlers; repeat branch.

(** Bring the recorded events into the form [events b ++ l]. *)
Ltac collect_events :=
  repeat rewrite <- app_assoc; cbn [app];
  try rewrite new_events_app;
  try match goal with
      | |- context [new_events ?b ?b] =>
          replace (new_events b b) with (@nil event)
            by (unfold new_events; by rewrite drop_all)
      end.

Ltac use_status :=
  repeat match goal with
         | H : (_ =? 200) = _ |- _ => rewrite H
         end.

Lemma new_events_none b : new_events b b = [].
Proof. unfold new_events. by rewrite drop_all. Qed.

Lemma handle_message_extraction_fails u text b s body r e :
  user_sessions b !! user_id u = Some s →
  (∀ n, net n (PostRun (telegram_username u) (session_id s) text (Some 15))
        = Response 200 body (Return r)) →
  extract_reply r = Raise e →
  new_events b (run net u (TextMessage text) b)
  = [ChatActionTyping;
     Http (PostRun (telegram_username u) (session_id s) text (Some 15))
          (Response 200 body (Return r));
     LogInfo r; LogError e; Send RunWentWrong]
  ∧ user_sessions (run net u (TextMessage text) b) = user_sessions b.
Proof.
  intros Hs Hnet He. open_handlers. rewrite Hs. cbn [fst snd user_sessions events].
  rewrite Hs, Hnet. cbn [fst snd user_sessions events].
  change (200 =? 200) with true. cbv iota. rewrite He.
  cbn [fst snd user_sessions events]. split; [|done]. by collect_events.
Qed.

(** C2, as the code has it.  The extraction never yields an empty reply:
    what it returns is truthy; when the four attempts end with an empty
    [model_response] it returns the fallback text, which is the case for
    every dictionary without the keys ["candidates"], ["response"] and
    ["data"].  It is not total: where it raises, [handle_message] catches
    the exception, logs it and sends the apology of line 367 instead, and
    the session binding stays as it was. *)
Theorem reply_never_empty (r : pyval) :
  (∀ v, extract_reply r = Return v → truthy v = true)
  ∧ (∀ m, attempts r = Return m → truthy m = false →
          extract_reply r = Return (VStr FALLBACK))
  ∧ (∀ d, r = VDict d →
          dict_mem "candidates" d = false → dict_mem "response" d = false →
          dict_mem "data" d = false →
          extract_reply r = Return (VStr FALLBACK))
  ∧ (∀ e u text b s body,
       extract_reply r = Raise e →
       user_sessions b !! user_id u = Some s →
       (∀ n, net n (PostRun (telegram_username u) (session_id s) text (Some 15))
             = Response 200 body (Return r)) →
       new_events b (run net u (TextMessage text) b)
       = [ChatActionTyping;
          Http (PostRun (telegram_username u) (session_id s) text (Some 15))
               (Response 200 body (Return r));
          LogInfo r; LogError e; Send RunWentWrong]
       ∧ user_sessions (run net u (TextMessage text) b) = user_sessions b).
Proof.
  repeat split.
  - intros v. unfold extract_reply. destruct (attempts r) as [m|e]; [|done].
    cbn [obind]. intros [= <-]. apply or_fallback_truthy.
  - intros m Hm Hfalse. unfold extract_reply. rewrite Hm. cbn [obind].
    unfold or_fallback. by rewrite Hfalse.
  - intros d -> Hc Hr Hd. unfold extract_reply, attempts, try_candidates,
      try_list, try_response, try_messages.
    cbn [contains obind]. rewrite Hc. cbn [obind truthy negb String.eqb].
    rewrite Hr. cbn [obind]. by rewrite Hd.
  - eapply handle_message_extraction_fails; eauto.
  - eapply handle_message_extraction_fails; eauto.
Qed.

Ltac not_among :=
  let H := fresh in
  intros H;
  repeat (apply elem_of_cons in H as [H|H]; [discriminate H|]);
  by apply elem_of_nil in H.

Ltac read_events :=
  collect_events;
  cbn [no_call_after_failure is_failed_call is_http existsb failed negb andb orb
       endpoints_called endpoint_of error_reports List.filter is_error_event
       is_error_report is_failed_main_call is_delete_call length];
  use_status;
  cbn [negb andb orb].

(** C9: the command that asks for a deletion makes no remote call and leaves
    the session store as it is; it sends either the notice that there is
    no session or the question with its two buttons.  In whatever a user
    does, a DELETE reaches the Agent Run Service only from the
    [confirm_delete] button, pressed by a user who has a session; and when
    that DELETE fails, by an exception or by a status other than 200, the
    session store is left as it was. *)
Theorem delete_needs_confirmation (u : user) (b : bot) :
  (new_events b (run net u CmdDeleteSession b)
     = [Send (match user_sessions b !! user_id u with
              | None => NoActiveSession
              | Some s => ConfirmDeletion (session_id s)
              end)]
   ∧ user_sessions (run net u CmdDeleteSession b) = user_sessions b)
  ∧ (∀ a, existsb is_delete_call (new_events b (run net u a b)) = true →
          a = PressButton "confirm_delete" ∧ is_Some (user_sessions b !! user_id u))
  ∧ (∀ a, existsb (λ ev, is_delete_call ev && is_failed_call ev)
            (new_events b (run net u a b)) = true →
          user_sessions (run net u a b) = user_sessions b).
Proof.
  split; [|split].
  - all_branches; by collect_events.
  - intros a. destruct a; all_branches; read_events; try discriminate.
    all: intros _; split; [|by eauto].
    all: by match goal with
            | H : String.eqb _ "confirm_delete" = true |- _ =>
                apply String.eqb_eq in H; rewrite H
            end.
  - intros a. destruct a; all_branches; read_events; try discriminate; try done.
Qed.

(** In what one action adds to the record no remote call follows a failed
    one and no endpoint is called twice; at most one failure report is
    sent, and exactly one when the creation, listing or deletion of a
    session or the agent run failed. *)
Lemma no_handler_retries (u : user) (a : action) (b : bot) :
  let evs := new_events b (run net u a b) in
  no_call_after_failure evs = true
  ∧ NoDup (endpoints_called evs)
  ∧ (error_reports evs ≤ 1)%nat
  ∧ (existsb is_failed_main_call evs = true → error_reports evs = 1%nat).
Proof.
  cbv zeta. repeat split.
  - destruct a; all_branches; read_events; reflexivity.
  - destruct a; all_branches; read_events;
      repeat (constructor; [not_among|]); constructor.
  - destruct a; all_branches; read_events; lia.
  - destruct a; all_branches; read_events; try discriminate; reflexivity.
Qed.

End Handlers.

Section HandlerExamples.
Import Knowledge ReplyExtractor TelegramBot Examples.

(** C8, as it is written, fails: Alice has a session, the agent run
    succeeds and the fetch of the artifacts comes back with status 500.
    The call failed, and no failure report is sent: the reply goes out
    without the notice. *)
Lemma artifact_failure_unreported :
  let evs := new_events alice_bound
               (run (net_run_only both_shapes) alice (TextMessage "hi") alice_bound) in
  existsb is_failed_call evs = true
  ∧ error_reports evs = 0%nat
  ∧ last evs = Some (Send (ModelResponse (VStr "primary"))).
Proof. vm_compute. repeat split; reflexivity. Qed.

Lemma delete_needs_confirmation_witness :
  (PressButton "confirm_delete" = PressButton "confirm_delete"
   ∧ is_Some (user_sessions alice_bound !! user_id alice))
  ∧ user_sessions (run net_500 alice (PressButton "confirm_delete") alice_bound)
    = user_sessions alice_bound
  ∧ user_sessions (run net_down alice (PressButton "confirm_delete") alice_bound)
    = user_sessions alice_bound.
Proof.
  split; [|split].
  - apply (proj1 (proj2 (delete_needs_confirmation net_500 alice alice_bound))).
    vm_compute. reflexivity.
  - apply (proj2 (proj2 (delete_needs_confirmation net_500 alice alice_bound))).
    vm_compute. reflexivity.
  - apply (proj2 (proj2 (delete_needs_confirmation net_down alice alice_bound))).
    vm_compute. reflexivity.
Defined.

Lemma reply_never_empty_witness :
  extract_reply (VDict [("status", VStr "ok")]) = Return (VStr FALLBACK)
  ∧ new_events alice_bound (run (net_run_only VNone) alice (TextMessage "hi") alice_bound)
    = [ChatActionTyping;
       Http (PostRun "alice" (VStr "s1") "hi" (Some 15)) (Response 200 "" (Return VNone));
       LogInfo VNone; LogError TypeError; Send RunWentWrong].
Proof.
  split.
  - apply (proj1 (proj2 (proj2 (reply_never_empty net_500 (VDict [("status", VStr "ok")]))))
             [("status", VStr "ok")]); reflexivity.
  - apply (proj2 (proj2 (proj2 (reply_never_empty (net_run_only VNone) VNone)))
             TypeError alice "hi" alice_bound
             {| session_id := VStr "s1"; session_username := "alice" |} "").
    + reflexivity.
    + vm_compute. reflexivity.
    + intros n. reflexivity.
Defined.

End HandlerExamples.

(** ** The cache inside an operation *)

Section CachedOperation.
Import Knowledge.
Variable E : env.
Variable self_model : string.

Lemma religious_information_fetched religion category q w w0 content :
  dict_mem (lower religion) RELIGIONS = true →
  cache_get E (SpiritualApi.religion_cache_key (lower religion) category q) w
    = (Return None, w0) →
  model E self_model (length (prompts w0))
    (SpiritualApi.religion_prompt (lower religion) category q) = WithText content →
  SpiritualApi.get_religious_information E self_model religion category q w
  = (Return (SpiritualApi.religion_result (lower religion) category q content),
     after_fetch E self_model w0 (SpiritualApi.religion_cache_key (lower religion) category q)
       (SpiritualApi.religion_prompt (lower religion) category q)
       (SpiritualApi.religion_result (lower religion) category q content)).
Proof.
  intros Hrel Hget Hgen. unfold SpiritualApi.get_religious_information.
  rewrite (valid_religion_nonempty _ Hrel).
  unfold catch, bind. rewrite Hrel. cbv beta iota zeta delta [negb].
  rewrite Hget. unfold generate_content. cbv beta iota zeta. rewrite Hgen.
  reflexivity.
Qed.


Lemma religious_information_reused religion category q w w0 cached :
  dict_mem (lower religion) RELIGIONS = true →
  cache_get E (SpiritualApi.religion_cache_key (lower religion) category q) w
    = (Return (Some cached), w0) →
  fst (SpiritualApi.get_religious_information E self_model religion category q w)
    = Return cached
  ∧ prompts (snd (SpiritualApi.get_religious_information E self_model religion category q w))
    = prompts w0.
Proof.
  intros Hrel Hget. unfold SpiritualApi.get_religious_information.
  rewrite (valid_religion_nonempty _ Hrel).
  unfold catch, bind. rewrite Hrel. cbv beta iota zeta delta [negb].
  rewrite Hget. by split.
Qed.


End CachedOperation.

Section CacheExamples.
Import Knowledge Examples.


End CacheExamples.

(** ** The session store *)

Section SessionStore.
Import ReplyExtractor TelegramBot.
Variable net : network.

Ltac open_handlers :=
  unfold run, dispatch, start, help_command, new_session, list_sessions,
    button_callback, confirm_delete, delete_session, handle_message,
    ensure_session, with_artifact_notice, bind_session, read_sessions,
    write_sessions, send, emit, call, catch, bind, lift, ret, raise;
  cbn [fst snd user_sessions events].

Ltac branch :=
  match goal with
  | |- context [match ?x with _ => _ end] =>
      lazymatch x with
      | context [match _ with _ => _ end] => fail
      | _ => destruct x eqn:?
      end
  end; cbn [fst snd user_sessions events].

Ltac all_branches := open_handlers; repeat branch.

Ltac collect_events :=
  repeat rewrite <- app_assoc; cbn [app];
  try rewrite new_events_app;
  try rewrite new_events_none.

Ltac read_events :=
  collect_events;
  cbn [no_call_after_failure is_failed_call is_http existsb failed negb andb orb
       endpoints_called endpoint_of error_reports List.filter is_error_event
       is_error_report is_failed_main_call is_delete_call length];
  repeat match goal with
         | H : (_ =? 200) = _ |- _ => rewrite H
         end;
  cbn [negb andb orb].

(** Whatever a user does, and whatever the service answers, the bindings
    of the other users stay as they are. *)
Theorem other_users_untouched (u : user) (a : action) (b : bot) (k : string) :
  k ≠ user_id u →
  user_sessions (run net u a b) !! k = user_sessions b !! k.
Proof.
  intros Hk. destruct a; all_branches;
    rewrite ?lookup_insert_ne, ?lookup_delete_ne by done; reflexivity.
Qed.

(** [list_sessions] is a query: it calls the list endpoint once, sends one
    message and leaves the session store as it is, whatever comes back. *)
Theorem list_sessions_is_a_query (u : user) (b : bot) :
  user_sessions (run net u CmdListSessions b) = user_sessions b
  ∧ endpoints_called (new_events b (run net u CmdListSessions b)) = [ListSessionsEndpoint]
  ∧ length (List.filter (λ ev, match ev with Send _ => true | _ => false end)
              (new_events b (run net u CmdListSessions b))) = 1%nat.
Proof.
  repeat split; all_branches; read_events; reflexivity.
Qed.

(** [new_session] binds the user exactly when the service answers 200 with
    a JSON object: to the value under ["id"], or to [None] when the object
    has no such key, replacing any earlier binding.  In every other case
    (an exception, another status, a body that is no JSON, JSON that is
    no object) the store is left as it is. *)
Theorem new_session_binding (u : user) (b : bot) :
  user_sessions (run net u CmdNewSession b)
  = match net (length (List.filter is_http (events b)))
            (PostSessions (telegram_username u) (Some 10)) with
    | Response status_code _ (Return (VDict d)) =>
        if status_code =? 200 then
          <[user_id u := {| session_id := match dict_get "id" d with
                                          | Some sid => sid
                                          | None => VNone
                                          end;
                            session_username := telegram_username u |}]>
            (user_sessions b)
        else user_sessions b
    | _ => user_sessions b
    end.
Proof.
  open_handlers.
  destruct (net _ _) as [e|status_code text [v|e]]; cbn [fst snd user_sessions events];
    [done| |by destruct (status_code =? 200)].
  destruct (status_code =? 200); cbn [fst snd user_sessions events];
    [|by destruct v].
  destruct v; cbn [get fst snd user_sessions events]; try done.
  by destruct (dict_get "id" d).
Qed.

Lemma prefix_empty (s : string) : String.prefix "" s = true.
Proof. by destruct s. Qed.

Lemma split_char_no_separator (sep : ascii) (s : string) :
  Forall (λ c, c ≠ sep) (String.list_ascii_of_string s) →
  split_char sep s = [s].
Proof.
  induction s as [|c s IH]; [done|].
  cbn [String.list_ascii_of_string]. intros [Hc Hs]%Forall_cons.
  cbn [split_char]. apply Ascii.eqb_neq in Hc. rewrite Hc, (IH Hs). reflexivity.
Qed.

(** Picking a session from the list binds the user to the picked id,
    whatever the user was bound to before, without any remote call.  The
    id is what stands between the first and the second colon of the
    callback data: an id without a colon is taken whole. *)
Theorem select_session_binds (u : user) (b : bot) (sid : string) :
  let chosen := hd "" (split_char ":" sid) in
  user_sessions (run net u (PressButton ("select_session:" +:+ sid)) b)
    = <[user_id u := {| session_id := VStr chosen;
                        session_username := telegram_username u |}]> (user_sessions b)
  ∧ new_events b (run net u (PressButton ("select_session:" +:+ sid)) b)
    = [AnswerCallback; Send (SessionSelected chosen)]
  ∧ (Forall (λ c, c ≠ ":"%char) (String.list_ascii_of_string sid) → chosen = sid).
Proof.
  cbv zeta.
  assert (Hstart : startswith ("select_session:" +:+ sid) "select_session:" = true).
  { unfold startswith. cbn. apply prefix_empty. }
  assert (Hfield : second_field ("select_session:" +:+ sid)
                   = Return (hd "" (split_char ":" sid))).
  { unfold second_field.
    change (split_char ":" ("select_session:" +:+ sid))
      with ("select_session" :: split_char ":" sid).
    by destruct sid as [|c sid]; [|cbn [split_char]; destruct (Ascii.eqb c ":");
                                   [|destruct (split_char ":" sid)]]. }
  repeat split.
  - open_handlers. rewrite Hstart, Hfield. reflexivity.
  - open_handlers. rewrite Hstart, Hfield. cbn [fst snd user_sessions events].
    by collect_events.
  - intros Hsid. by rewrite (split_char_no_separator _ _ Hsid).
Qed.

(** A user who has a session keeps it when writing a message: no session
    is created, the text goes to [/run] with the bound session id, and
    the store is the same afterwards, whatever the service answers.  A
    user without one gets one first: when the creation succeeds with a
    JSON object, the id in it is bound and the same text goes to [/run]
    with that id; the next message of that user then finds the binding
    and creates nothing. *)
Theorem session_is_reused (u : user) (text text' : string) (b : bot) :
  (∀ s, user_sessions b !! user_id u = Some s →
     user_sessions (run net u (TextMessage text) b) = user_sessions b
     ∧ ∃ answer rest,
         new_events b (run net u (TextMessage text) b)
         = ChatActionTyping
           :: Http (PostRun (telegram_username u) (session_id s) text (Some 15)) answer
           :: rest
         ∧ (endpoints_called rest = [] ∨ endpoints_called rest = [ArtifactsEndpoint]))
  ∧ (∀ body d,
       user_sessions b !! user_id u = None →
       net (length (List.filter is_http (events b)))
           (PostSessions (telegram_username u) None)
         = Response 200 body (Return (VDict d)) →
       let sid := match dict_get "id" d with Some v => v | None => VNone end in
       let b1 := run net u (TextMessage text) b in
       user_sessions b1
         = <[user_id u := {| session_id := sid;
                             session_username := telegram_username u |}]> (user_sessions b)
       ∧ (∃ answer rest,
            new_events b b1
            = Http (PostSessions (telegram_username u) None)
                   (Response 200 body (Return (VDict d)))
              :: Send (SessionAutoCreated sid)
              :: ChatActionTyping
              :: Http (PostRun (telegram_username u) sid text (Some 15)) answer
              :: rest
            ∧ (endpoints_called rest = [] ∨ endpoints_called rest = [ArtifactsEndpoint]))
       ∧ user_sessions (run net u (TextMessage text') b1) = user_sessions b1
       ∧ ∃ answer rest,
           new_events b1 (run net u (TextMessage text') b1)
           = ChatActionTyping
             :: Http (PostRun (telegram_username u) sid text' (Some 15)) answer
             :: rest
           ∧ (endpoints_called rest = [] ∨ endpoints_called rest = [ArtifactsEndpoint])).
Proof.
  assert (Hbound : ∀ t b0 s, user_sessions b0 !! user_id u = Some s →
     user_sessions (run net u (TextMessage t) b0) = user_sessions b0
     ∧ ∃ answer rest,
         new_events b0 (run net u (TextMessage t) b0)
         = ChatActionTyping
           :: Http (PostRun (telegram_username u) (session_id s) t (Some 15)) answer
           :: rest
         ∧ (endpoints_called rest = [] ∨ endpoints_called rest = [ArtifactsEndpoint])).
  { intros t b0 s Hs. open_handlers. rewrite Hs.
    cbn [fst snd user_sessions events]. rewrite Hs.
    repeat branch.
    all: split; [reflexivity|].
    all: eexists _, _; split; [collect_events; reflexivity|].
    all: cbn [endpoints_called endpoint_of]; auto. }
  split; [apply Hbound|].
  intros body d Hnone Hnet sid b1.
  assert (Hstore : user_sessions b1
            = <[user_id u := {| session_id := sid;
                                session_username := telegram_username u |}]>
                (user_sessions b)).
  { subst b1. open_handlers. rewrite Hnone. cbn [fst snd user_sessions events].
    rewrite Hnet. cbn [fst snd user_sessions events].
    change (200 =? 200) with true. cbv iota. cbn [get fst snd user_sessions events].
    fold sid. assert (match dict_get "id" d with
                      | Some x => Return x | None => Return VNone end = Return sid)
      as -> by (subst sid; by destruct (dict_get "id" d)).
    cbn [fst snd user_sessions events]. rewrite lookup_insert_eq.
    repeat branch; reflexivity. }
  split; [exact Hstore|]. split.
  - subst b1. open_handlers. rewrite Hnone. cbn [fst snd user_sessions events].
    rewrite Hnet. cbn [fst snd user_sessions events].
    change (200 =? 200) with true. cbv iota. cbn [get fst snd user_sessions events].
    fold sid. assert (match dict_get "id" d with
                      | Some x => Return x | None => Return VNone end = Return sid)
      as -> by (subst sid; by destruct (dict_get "id" d)).
    cbn [fst snd user_sessions events]. rewrite lookup_insert_eq.
    repeat branch.
    all: eexists _, _; split; [collect_events; reflexivity|].
    all: cbn [endpoints_called endpoint_of]; auto.
  - apply (Hbound text' b1 {| session_id := sid; session_username := telegram_username u |}).
    rewrite Hstore. apply lookup_insert_eq.
Qed.

(** A message of a user without a session whose session cannot be created
    (an exception, or another status than 200) is not forwarded: the only
    remote call is the failed creation, one failure report is sent and no
    binding appears. *)
Theorem message_dropped_without_session (u : user) (text : string) (b : bot) :
  user_sessions b !! user_id u = None →
  failed (net (length (List.filter is_http (events b)))
              (PostSessions (telegram_username u) None)) = true →
  user_sessions (run net u (TextMessage text) b) = user_sessions b
  ∧ endpoints_called (new_events b (run net u (TextMessage text) b))
    = [CreateSessionEndpoint]
  ∧ error_reports (new_events b (run net u (TextMessage text) b)) = 1%nat.
Proof.
  intros Hnone Hfailed. open_handlers. rewrite Hnone.
  cbn [fst snd user_sessions events].
  destruct (net _ _) as [e|status_code body json]; cbn [fst snd user_sessions events].
  - repeat split; by read_events.
  - cbn [failed] in Hfailed. apply negb_true_iff in Hfailed. rewrite Hfailed.
    cbn [fst snd user_sessions events]. repeat split; by read_events.
Qed.

(** A confirmed deletion that the service answers with 200 asks for the
    deletion of the bound session id, removes the binding of the user and
    says so; after it, the delete command finds no session. *)
Theorem confirmed_delete_unbinds (u : user) (b : bot) (s : session) (body : string)
    (json : outcome pyval) :
  user_sessions b !! user_id u = Some s →
  (∀ n, net n (DeleteSession (telegram_username u) (session_id s) (Some 10))
        = Response 200 body json) →
  let b1 := run net u (PressButton "confirm_delete") b in
  user_sessions b1 = delete (user_id u) (user_sessions b)
  ∧ new_events b b1
    = [AnswerCallback;
       Http (DeleteSession (telegram_username u) (session_id s) (Some 10))
            (Response 200 body json);
       Send SessionDeleted]
  ∧ new_events b1 (run net u CmdDeleteSession b1) = [Send NoActiveSession].
Proof.
  intros Hs Hnet b1.
  assert (Hrun : b1 = {| user_sessions := delete (user_id u) (user_sessions b);
                         events := events b ++
                           [AnswerCallback;
                            Http (DeleteSession (telegram_username u) (session_id s) (Some 10))
                                 (Response 200 body json);
                            Send SessionDeleted] |}).
  { subst b1. open_handlers.
    change (startswith "confirm_delete" "select_session:") with false.
    change (String.eqb "confirm_delete" "confirm_delete") with true.
    cbv beta iota. cbn [fst snd user_sessions events].
    rewrite Hs. cbn [fst snd user_sessions events].
    rewrite Hnet. cbn [fst snd user_sessions events].
    change (200 =? 200) with true. cbv iota. cbn [fst snd user_sessions events].
    by rewrite <- !app_assoc. }
  rewrite Hrun. repeat split.
  - apply new_events_app.
  - open_handlers. rewrite lookup_delete_eq. cbn [fst snd user_sessions events].
    unfold new_events. cbn [events]. by rewrite drop_app_length.
Qed.

(** After the text of the reply is found, the notice about artifacts is
    appended to it whenever the artifact list of the session is a
    non-empty list, and the text is sent as it is when the list is empty,
    whichever shape the text came from. *)
Theorem artifact_notice_appended (u : user) (text body body' t : string) (b : bot)
    (s : session) (api_response artifacts : pyval) :
  user_sessions b !! user_id u = Some s →
  (∀ n, net n (PostRun (telegram_username u) (session_id s) text (Some 15))
        = Response 200 body (Return api_response)) →
  (∀ n, net n (GetArtifacts (telegram_username u) (session_id s) (Some 10))
        = Response 200 body' (Return artifacts)) →
  extract_reply api_response = Return (VStr t) →
  (∀ x l, artifacts = VList (x :: l) →
     last (new_events b (run net u (TextMessage text) b))
     = Some (Send (ModelResponse (VStr (t +:+ ARTIFACT_NOTICE)))))
  ∧ (artifacts = VList [] →
     last (new_events b (run net u (TextMessage text) b))
     = Some (Send (ModelResponse (VStr t)))).
Proof.
  intros Hs Hrun Hart Ht.
  split; [intros x l ->|intros ->].
  all: open_handlers; rewrite Hs; cbn [fst snd user_sessions events].
  all: rewrite Hs, Hrun; cbn [fst snd user_sessions events].
  all: change (200 =? 200) with true; cbv iota; rewrite Ht.
  all: cbn [fst snd user_sessions events]; rewrite Hart.
  all: cbn [fst snd user_sessions events truthy len Nat.ltb Nat.leb length iadd].
  all: change (200 =? 200) with true; cbv iota.
  all: cbn [fst snd user_sessions events truthy len Nat.ltb Nat.leb length iadd].
  all: by collect_events.
Qed.

End SessionStore.

(** ** More on the reply extractor *)

Section ExtractorEdges.
Import ReplyExtractor Shapes.

(** A response that is no object and no list: [null], a boolean or a number
    makes the extraction raise [TypeError]; a string gives the fallback
    text unless it contains one of the words ["candidates"], ["response"]
    or ["data"], in which case the extraction raises [TypeError] too. *)
Theorem extraction_of_scalars (r : pyval) :
  match r with
  | VNone | VBool _ | VInt _ | VFloat _ => extract_reply r = Raise TypeError
  | VStr s =>
      extract_reply r
      = if is_substring "candidates" s || is_substring "response" s
           || is_substring "data" s
        then Raise TypeError else Return (VStr FALLBACK)
  | VList _ | VDict _ => True
  end.
Proof.
  destruct r; try reflexivity; [|done..].
  unfold extract_reply, attempts, try_candidates, try_list, try_response, try_messages.
  cbn [contains obind getitem truthy negb String.eqb].
  destruct (is_substring "candidates" s); [done|].
  cbn [obind truthy negb String.eqb].
  destruct (is_substring "response" s); [done|].
  cbn [obind truthy negb String.eqb orb].
  by destruct (is_substring "data" s).
Qed.

(** The scan of [data.messages] stops at the last message of the model
    even when that message carries no text: the reply is then the
    fallback, whatever the earlier messages say. *)
Theorem silent_model_message_gives_fallback
    (r : pyval) (before : list pyval) (d : list (string * pyval))
    (after ps : list pyval) (texts : list string) :
  try_candidates r (VStr "") = Return (VStr "") →
  try_response r (VStr "") = Return (VStr "") →
  messages r = Some (VList (before ++ VDict d :: after)) →
  Forall other_message after →
  role_is_model d = true →
  dict_get "parts" d = Some (VList ps) →
  Forall2 part_with_text ps texts →
  String.concat "" texts = "" →
  extract_reply r = Return (VStr FALLBACK).
Proof.
  intros H1 H3 Hmsgs Hafter Hrole Hparts Hps Hcat.
  unfold extract_reply, attempts.
  rewrite H1. cbv beta iota delta [obind].
  assert (∃ rd, r = VDict rd) as [rd ->].
  { unfold messages in Hmsgs. apply bind_Some in Hmsgs as (? & Hm & _).
    apply at_key_Some in Hm as (rd & -> & _). eauto. }
  rewrite try_list_on_dict. cbv beta iota.
  rewrite H3. cbv beta iota.
  rewrite (try_messages_found _ _ _ _ _ _ Hmsgs Hafter Hrole Hparts Hps).
  cbv beta iota. by rewrite Hcat.
Qed.

End ExtractorEdges.

Section MoreHandlerExamples.
Import ReplyExtractor Shapes TelegramBot Examples.

Lemma silent_model_message_gives_fallback_witness :
  extract_reply silent_last_turn = Return (VStr FALLBACK).
Proof.
  apply (silent_model_message_gives_fallback silent_last_turn
           [VDict [("role", VStr "model");
                   ("parts", VList [VDict [("text", VStr "earlier answer")]])];
            VDict [("role", VStr "user");
                   ("parts", VList [VDict [("text", VStr "and now?")]])]]
           [("role", VStr "model"); ("parts", VList [])] [] [] []);
    try reflexivity; constructor.
Defined.

Lemma other_users_untouched_witness :
  user_sessions (run (net_up VNone VNone) alice CmdNewSession both_bound) !! "77"
  = Some {| session_id := VStr "s2"; session_username := "user77" |}.
Proof.
  rewrite (other_users_untouched (net_up VNone VNone) alice CmdNewSession both_bound "77").
  - reflexivity.
  - discriminate.
Defined.

Lemma select_session_binds_witness :
  hd "" (split_char ":" "0b7c1d2e") = "0b7c1d2e"
  ∧ user_sessions (run net_down alice (PressButton ("select_session:" +:+ "0b7c1d2e")) alice_bound)
      !! "42"
    = Some {| session_id := VStr "0b7c1d2e"; session_username := "alice" |}.
Proof.
  split.
  - apply (proj2 (proj2 (select_session_binds net_down alice alice_bound "0b7c1d2e"))).
    repeat (constructor; [discriminate|]). constructor.
  - rewrite (proj1 (select_session_binds net_down alice alice_bound "0b7c1d2e")).
    reflexivity.
Defined.

Lemma session_is_reused_witness :
  user_sessions (run (net_up both_shapes (VList [])) alice (TextMessage "hello") nobody_bound)
    !! "42"
  = Some {| session_id := VStr "s9"; session_username := "alice" |}
  ∧ user_sessions (run (net_up both_shapes (VList [])) alice (TextMessage "again")
                     (run (net_up both_shapes (VList [])) alice (TextMessage "hello")
                        nobody_bound))
    = user_sessions (run (net_up both_shapes (VList [])) alice (TextMessage "hello")
                       nobody_bound)
  ∧ user_sessions (run net_down alice (TextMessage "hello") alice_bound)
    = user_sessions alice_bound.
Proof.
  pose proof (session_is_reused (net_up both_shapes (VList [])) alice "hello" "again"
                nobody_bound) as [_ Hnew].
  pose proof (session_is_reused net_down alice "hello" "again" alice_bound) as [Hold _].
  destruct (Hnew "" [("id", VStr "s9")] eq_refl eq_refl) as (Hstore & _ & Hsame & _).
  split; [|split].
  - rewrite Hstore. reflexivity.
  - exact Hsame.
  - exact (proj1 (Hold {| session_id := VStr "s1"; session_username := "alice" |} eq_refl)).
Defined.

Lemma message_dropped_without_session_witness :
  endpoints_called (new_events nobody_bound (run net_500 alice (TextMessage "hi") nobody_bound))
  = [CreateSessionEndpoint].
Proof.
  apply (message_dropped_without_session net_500 alice "hi" nobody_bound); reflexivity.
Defined.

Lemma confirmed_delete_unbinds_witness :
  user_sessions (run (net_up VNone VNone) alice (PressButton "confirm_delete") alice_bound)
  = delete "42" (user_sessions alice_bound).
Proof.
  apply (confirmed_delete_unbinds (net_up VNone VNone) alice alice_bound
           {| session_id := VStr "s1"; session_username := "alice" |} "" (Return VNone)).
  - reflexivity.
  - intros n. reflexivity.
Defined.

Lemma artifact_notice_appended_witness :
  last (new_events alice_bound
          (run (net_up both_shapes (VList [VStr "report.pdf"])) alice (TextMessage "hi")
             alice_bound))
  = Some (Send (ModelResponse (VStr ("primary" +:+ ARTIFACT_NOTICE))))
  ∧ last (new_events alice_bound
            (run (net_up both_shapes (VList [])) alice (TextMessage "hi") alice_bound))
    = Some (Send (ModelResponse (VStr "primary"))).
Proof.
  split.
  - apply (proj1 (artifact_notice_appended (net_up both_shapes (VList [VStr "report.pdf"]))
                    alice "hi" "" "" "primary" alice_bound
                    {| session_id := VStr "s1"; session_username := "alice" |}
                    both_shapes (VList [VStr "report.pdf"])
                    eq_refl (λ _, eq_refl) (λ _, eq_refl) eq_refl)
             (VStr "report.pdf") []).
    reflexivity.
  - apply (proj2 (artifact_notice_appended (net_up both_shapes (VList []))
                    alice "hi" "" "" "primary" alice_bound
                    {| session_id := VStr "s1"; session_username := "alice" |}
                    both_shapes (VList [])
                    eq_refl (λ _, eq_refl) (λ _, eq_refl) eq_refl)).
    reflexivity.
Defined.

End MoreHandlerExamples.

(** ** Every knowledge operation *)

Section AllOperations.
Import Knowledge Surface.
Variable E : env.

Ltac open_operations :=
  unfold answer,
    SpiritualApi.get_religious_information, SpiritualApi.religion_failed,
    SpiritualApi.get_philosophical_perspective, SpiritualApi.philosophy_failed,
    SpiritualApi.compare_religions, SpiritualApi.comparison_failed,
    SpiritualApi.get_meditation_guide, SpiritualApi.meditation_failed,
    SpiritualApiDaily.get_daily_spiritual_insight, SpiritualApiDaily.generate_daily,
    SpiritualApiDaily.daily_failed, SpiritualApiDaily.read_cache,
    PkgSpiritualApi.get_religious_information,
    PkgSpiritualApi.get_meditation_guide, PkgSpiritualApi.meditation_failed,
    PkgSpiritualApi.get_interfaith_dialogue, PkgSpiritualApi.interfaith_failed,
    PkgSpiritualApiRest.get_philosophical_perspective, PkgSpiritualApiRest.philosophy_failed,
    PkgSpiritualApiRest.compare_religions, PkgSpiritualApiRest.comparison_failed,
    PkgSpiritualApiRest.get_daily_spiritual_insight,
    PkgSpiritualApiRest.get_spiritual_practice_guide, PkgSpiritualApiRest.practice_failed,
    Agent.get_religious_information, Agent.get_philosophical_perspective,
    Agent.compare_religions, Agent.get_meditation_guide,
    Agent.get_interfaith_dialogue, Agent.failed,
    AgentRest.get_daily_spiritual_insight, AgentRest.get_spiritual_practice_guide,
    SpiritualApi.get_religious_information, SpiritualApi.religion_failed,
    SpiritualApi.get_philosophical_perspective, SpiritualApi.philosophy_failed,
    SpiritualApi.compare_religions, SpiritualApi.comparison_failed,
    SpiritualApi.get_meditation_guide, SpiritualApi.meditation_failed,
    SpiritualApiDaily.get_daily_spiritual_insight, SpiritualApiDaily.generate_daily,
    SpiritualApiDaily.daily_failed, SpiritualApiDaily.read_cache,
    cache_get, cache_put, generate_content, time_time, print, set_cache,
    catch, bind, lift, ret, raise;
  cbn [fst snd prompts response_cache].

Ltac fork :=
  match goal with
  | |- context [match ?x with _ => _ end] =>
      lazymatch x with
      | context [match _ with _ => _ end] => fail
      | _ => destruct x eqn:?
      end
  | |- context [if ?x then _ else _] =>
      lazymatch x with
      | context [if _ then _ else _] => fail
      | context [match _ with _ => _ end] => fail
      | _ => destruct x eqn:?
      end
  end; cbn [fst snd prompts response_cache].

Ltac all_paths := open_operations; repeat fork.

(** No operation raises: whatever the arguments, the cache, the clock and
    the Generation Service, the caller gets a payload back. *)
Theorem operations_never_raise (q : query) (w : world) :
  ∃ payload, fst (answer E q w) = Return payload.
Proof. destruct q; all_paths; by eexists. Qed.

(** An operation writes at most one cache entry and removes none; what it
    writes is the payload it returns, and that payload is never an error
    payload: failures are not cached. *)
Theorem cache_writes (q : query) (w : world) :
  response_cache (snd (answer E q w)) = response_cache w
  ∨ ∃ key entry,
      response_cache (snd (answer E q w)) = <[key := entry]> (response_cache w)
      ∧ fst (answer E q w) = Return (data entry)
      ∧ is_error_payload (data entry) = false.
Proof.
  destruct q; all_paths; try (by left).
  all: right; eexists _, _; split; [reflexivity|]; split; reflexivity.
Qed.

(** Whatever the Generation Service answers, an operation sends it no
    prompt or one; when the one prompt is answered with an exception, the
    caller gets an error payload. *)
Lemma at_most_one_prompt (q : query) (w : world) :
  prompts (snd (answer E q w)) = prompts w
  ∨ ∃ model_name prompt,
      prompts (snd (answer E q w)) = prompts w ++ [(model_name, prompt)]
      ∧ ∀ e, model E model_name (length (prompts w)) prompt = GenFails e →
             ∃ message, fst (answer E q w) = Return (error_payload message).
Proof.
  destruct q; all_paths; try (by left).
  all: right; eexists _, _; split; [reflexivity|];
    intros ? ?; first [congruence | by eexists].
Qed.

End AllOperations.

(** ** One attempt per action *)

Section Attempts.
Import Knowledge TelegramBot.

(** C8, as the code has it.  Nothing in the handlers or in the knowledge
    operations tries again: in what one user action adds to the record no
    remote call follows a failed one and no endpoint is called twice, and
    every operation of the two classes and every tool of the agent sends
    the Generation Service at most one prompt; when that one call fails,
    the caller gets one error payload.  An action sends at most one
    failure report, and exactly one when the creation, listing or
    deletion of a session or the agent run failed; a fetch of the
    artifacts answered with another status than 200 is passed over in
    silence and is not among these. *)
Theorem one_attempt_per_action
    (net : network) (u : user) (a : action) (b : bot)
    (E : env) (q : Surface.query) (w : world) :
  (let evs := new_events b (run net u a b) in
   no_call_after_failure evs = true
   ∧ NoDup (endpoints_called evs)
   ∧ (error_reports evs ≤ 1)%nat
   ∧ (existsb is_failed_main_call evs = true → error_reports evs = 1%nat))
  ∧ (length (prompts (snd (Surface.answer E q w))) ≤ S (length (prompts w)))%nat
  ∧ (prompts (snd (Surface.answer E q w)) = prompts w
     ∨ ∃ model_name prompt,
         prompts (snd (Surface.answer E q w)) = prompts w ++ [(model_name, prompt)]
         ∧ ∀ e, model E model_name (length (prompts w)) prompt = GenFails e →
                ∃ message, fst (Surface.answer E q w) = Return (error_payload message)).
Proof.
  split; [apply no_handler_retries|].
  pose proof (at_most_one_prompt E q w) as Hsent. split; [|exact Hsent].
  destruct Hsent as [->|(m & p & -> & _)]; [lia|].
  rewrite length_app. cbn [length]. lia.
Qed.

End Attempts.

Section AttemptExamples.
Import Knowledge ReplyExtractor TelegramBot Examples.

Lemma one_attempt_per_action_witness :
  error_reports (new_events nobody_bound (run net_down alice (TextMessage "hi") nobody_bound))
  = 1%nat.
Proof.
  apply (proj1 (one_attempt_per_action net_down alice (TextMessage "hi") nobody_bound
                  E_answers Surface.ToolAvailableReligions new_world)).
  vm_compute. reflexivity.
Defined.

End AttemptExamples.

(** ** The cache, seen from the operations *)

Section CacheInUse.
Import Knowledge.
Variable E : env.

Lemma cache_get_miss key w :
  response_cache w !! key = None → cache_get E key w = (Return None, w).
Proof. intros H. unfold cache_get. by rewrite H. Qed.

(** The read that follows a fetch: one clock reading, and the stored
    payload if it is still fresh. *)
Lemma cache_get_after_fetch self_model w key prompt result :
  cache_get E key (after_fetch E self_model w key prompt result)
  = (Return (if fresh (clock E (S (clock_reads w)))
                  {| data := result; timestamp := clock E (clock_reads w) |}
             then Some result else None),
     {| response_cache := response_cache (after_fetch E self_model w key prompt result);
        clock_reads := S (S (clock_reads w));
        prompts := prompts w ++ [(self_model, prompt)];
        stdout := stdout w |}).
Proof.
  unfold cache_get, after_fetch. cbn [response_cache].
  rewrite lookup_insert_eq. unfold bind, time_time, ret.
  cbn [clock_reads prompts stdout response_cache].
  by destruct (fresh _ _).
Qed.


(** Only the first 50 characters of the question enter the cache key: of
    two questions in 7-bit characters about the same religion and
    category that agree on them, the second, asked while the first answer
    is fresh, gets the payload of the first, its ["query"] field included,
    and the Generation Service is not asked. *)
Theorem long_questions_share_an_entry
    (self_model religion category q1 q2 content : string) (w : world) :
  let key := SpiritualApi.religion_cache_key (lower religion) category (Some q1) in
  let prompt := SpiritualApi.religion_prompt (lower religion) category (Some q1) in
  let first := SpiritualApi.get_religious_information E self_model religion category (Some q1) in
  let second := SpiritualApi.get_religious_information E self_model religion category (Some q2) in
  dict_mem (lower religion) RELIGIONS = true →
  q1 ≠ "" → q2 ≠ "" →
  ascii_only q1 = true → ascii_only q2 = true →
  str_prefix 50 q1 = str_prefix 50 q2 →
  response_cache w !! key = None →
  model E self_model (length (prompts w)) prompt = WithText content →
  (float_sub (clock E (S (clock_reads w))) (clock E (clock_reads w)) < cache_time)%Q →
  fst (second (snd (first w)))
    = Return (SpiritualApi.religion_result (lower religion) category (Some q1) content)
  ∧ prompts (snd (second (snd (first w)))) = prompts (snd (first w)).
Proof.
  intros key prompt first second Hrel Hq1 Hq2 _ _ Hsame Hmiss Hgen Hfresh.
  assert (Hkey : SpiritualApi.religion_cache_key (lower religion) category (Some q2) = key).
  { unfold key, SpiritualApi.religion_cache_key, given. cbn [opt_str].
    by rewrite !nonempty_truthy, Hsame by done. }
  unfold first, second.
  rewrite (religious_information_fetched E self_model religion category (Some q1) w w content
             Hrel (cache_get_miss _ _ Hmiss) Hgen).
  cbn [snd]. fold key prompt.
  pose proof (cache_get_after_fetch self_model w key prompt
                (SpiritualApi.religion_result (lower religion) category (Some q1) content))
    as Hget.
  assert (Hfresh' : fresh (clock E (S (clock_reads w)))
            {| data := SpiritualApi.religion_result (lower religion) category (Some q1) content;
               timestamp := clock E (clock_reads w) |} = true) by (by apply fresh_iff).
  rewrite Hfresh' in Hget. rewrite <- Hkey in Hget at 1.
  exact (religious_information_reused E self_model religion category (Some q2) _ _ _
           Hrel Hget).
Qed.

(** The key does not tell where the category ends and the question
    begins: a question in 7-bit characters under one category and no
    question under the category spelled [category-question] have the same
    key. *)
Theorem category_and_question_run_together (religion category q : string) :
  category ≠ "" → q ≠ "" →
  ascii_only q = true →
  SpiritualApi.religion_cache_key religion category (Some q)
  = SpiritualApi.religion_cache_key religion (category +:+ "-" +:+ str_prefix 50 q) None.
Proof.
  intros Hc Hq _. unfold SpiritualApi.religion_cache_key, _get_cache_key, given.
  cbn [opt_str]. rewrite !nonempty_truthy by done.
  assert (truthy (VStr (category +:+ "-" +:+ str_prefix 50 q)) = true) as ->.
  { destruct category; [done|reflexivity]. }
  by rewrite !append_assoc.
Qed.

End CacheInUse.

(** ** Letter case of the identifiers *)

Section LetterCase.
Import Knowledge.
Variable E : env.



End LetterCase.

Section LetterCaseExamples.
Import Knowledge Examples.


End LetterCaseExamples.

(** ** Interfaith dialogue *)

Section Interfaith.
Import Knowledge PkgSpiritualApi.
Variable E : env.

Lemma interfaith_prompt_defined topic valid :
  (2 ≤ length valid)%nat → ∃ prompt, interfaith_prompt topic valid = Return prompt.
Proof.
  intros Hlen. unfold interfaith_prompt.
  destruct (last valid) eqn:Hlast; [by eexists|].
  apply last_None in Hlast. subst. simpl in Hlen. lia.
Qed.

Lemma agent_interfaith_prompt_defined topic valid :
  (2 ≤ length valid)%nat → ∃ prompt, Agent.interfaith_prompt topic valid = Return prompt.
Proof.
  intros Hlen. unfold Agent.interfaith_prompt.
  destruct (last valid) eqn:Hlast; [by eexists|].
  apply last_None in Hlast. subst. simpl in Hlen. lia.
Qed.

(** The payload stored for a dialogue lists the participants in the order
    they were given, while the key is made from the sorted list: the
    same participants in another order, asked while the answer is fresh,
    get the stored payload, with the participants in the first order, and
    the Generation Service is not asked.  The names and the topic are in
    7-bit characters. *)
Theorem reordered_participants_get_first_answer
    (topic content : string) (religions1 religions2 : list string) (w : world) :
  let valid1 := valid_religions_of (religions_or_default (Some religions1)) in
  let first := get_interfaith_dialogue E topic (Some religions1) in
  let second := get_interfaith_dialogue E topic (Some religions2) in
  topic ≠ "" →
  ascii_only topic = true →
  forallb ascii_only religions1 = true →
  religions1 ≡ₚ religions2 →
  (2 ≤ length valid1)%nat →
  response_cache w !! interfaith_cache_key topic valid1 = None →
  (∀ prompt, model E MODEL (length (prompts w)) prompt = WithText content) →
  (float_sub (clock E (S (clock_reads w))) (clock E (clock_reads w)) < cache_time)%Q →
  fst (first w) = Return (VDict [("topic", VStr topic);
                                 ("religions", VList (VStr <$> valid1));
                                 ("dialogue", VStr content)])
  ∧ fst (second (snd (first w))) = fst (first w)
  ∧ prompts (snd (second (snd (first w)))) = prompts (snd (first w)).
Proof.
  intros valid1 first second Htopic _ _ Hperm Hlen Hmiss Hgen Hfresh.
  pose proof (nonempty_truthy _ Htopic) as Ht.
  destruct (interfaith_prompt_defined topic valid1 Hlen) as [prompt Hprompt].
  set (result := VDict [("topic", VStr topic);
                        ("religions", VList (VStr <$> valid1));
                        ("dialogue", VStr content)]).
  set (key := interfaith_cache_key topic valid1) in *.
  assert (Hfirst : first w = (Return result, after_fetch E MODEL w key prompt result)).
  { unfold first, get_interfaith_dialogue, catch, bind. rewrite Ht.
    fold valid1. apply Nat.ltb_ge in Hlen. rewrite Hlen.
    cbv beta iota zeta delta [negb]. fold key.
    rewrite (cache_get_miss E _ _ Hmiss). rewrite Hprompt. unfold lift.
    unfold generate_content. cbv beta iota zeta. rewrite Hgen. reflexivity. }
  assert (Hvalid2 : interfaith_cache_key topic
                      (valid_religions_of (religions_or_default (Some religions2))) = key).
  { unfold key, interfaith_cache_key. f_equal. f_equal. apply sorted_Permutation.
    symmetry. by apply valid_religions_of_Permutation, religions_or_default_Permutation. }
  assert (Hlen2 : (length (valid_religions_of (religions_or_default (Some religions2)))
                   <? 2)%nat = false).
  { apply Nat.ltb_ge.
    rewrite <- (Permutation_length
                  (valid_religions_of_Permutation _ _
                     (religions_or_default_Permutation _ _ Hperm))).
    exact Hlen. }
  assert (Hsecond : second (after_fetch E MODEL w key prompt result)
            = (Return result,
               {| response_cache := response_cache (after_fetch E MODEL w key prompt result);
                  clock_reads := S (S (clock_reads w));
                  prompts := prompts w ++ [(MODEL, prompt)];
                  stdout := stdout w ++ ["Using cached interfaith dialogue"] |})).
  { unfold second, get_interfaith_dialogue, catch, bind. rewrite Ht, Hlen2.
    cbv beta iota zeta delta [negb]. rewrite Hvalid2.
    rewrite cache_get_after_fetch.
    assert (fresh (clock E (S (clock_reads w)))
              {| data := result; timestamp := clock E (clock_reads w) |} = true) as ->
      by (by apply fresh_iff).
    reflexivity. }
  rewrite Hfirst. cbn [fst snd]. rewrite Hsecond. by repeat split.
Qed.

(** The same religion named twice counts as two participants: the check
    for two valid religions passes and a dialogue of the religion with
    itself is asked for. *)
Theorem repeated_participant_counts_twice
    (topic content religion : string) (w : world) :
  dict_mem (lower religion) RELIGIONS = true →
  (∀ prompt, model E "gemini-1.5-pro" (length (prompts w)) prompt = WithText content) →
  valid_religions_of (religions_or_default (Some [religion; religion]))
    = [lower religion; lower religion]
  ∧ fst (Agent.get_interfaith_dialogue E topic (Some [religion; religion]) w)
    = Return (VDict [("status", VStr "success");
                     ("topic", VStr topic);
                     ("religions", VList [VStr (lower religion); VStr (lower religion)]);
                     ("dialogue", VStr content)]).
Proof.
  intros Hrel Hgen.
  assert (Hvalid : valid_religions_of (religions_or_default (Some [religion; religion]))
                   = [lower religion; lower religion]).
  { cbn [religions_or_default truthy fmap list_fmap length Nat.ltb Nat.leb negb orb
         valid_religions_of]. by rewrite Hrel. }
  split; [done|].
  unfold Agent.get_interfaith_dialogue, catch, bind. rewrite Hvalid.
  cbn [length Nat.ltb Nat.leb].
  destruct (agent_interfaith_prompt_defined topic [lower religion; lower religion])
    as [prompt Hprompt]; [simpl; lia|].
  rewrite Hprompt. unfold lift, generate_content. cbv beta iota zeta.
  rewrite Hgen. reflexivity.
Qed.

End Interfaith.

(** ** Practice guide *)

Section Practice.
Import Knowledge PkgSpiritualApiRest.
Variable E : env.

Lemma normalize_level_cases level :
  (lower level = "beginner" ∨ lower level = "intermediate" ∨ lower level = "advanced")
  ∧ normalize_level level = level
  ∨ ¬ (lower level = "beginner" ∨ lower level = "intermediate" ∨ lower level = "advanced")
    ∧ normalize_level level = "beginner".
Proof.
  unfold normalize_level, valid_levels. cbn [existsb].
  destruct (String.eqb_spec (lower level) "beginner"); [left; by auto|].
  destruct (String.eqb_spec (lower level) "intermediate"); [left; by auto|].
  destruct (String.eqb_spec (lower level) "advanced"); [left; by auto|].
  right. split; [|done]. by intros [|[|]].
Qed.

(** A level that is none of beginner, intermediate and advanced, in any
    letter case, is replaced by ["beginner"]; one of the three is kept as
    it was typed.  The tool of [agent.py] sends one prompt, made with the
    level so obtained, and returns that level in the payload.  The
    packaged class, on a cache miss, sends the prompt made with it,
    returns it in the payload and stores the payload under a key made
    from the lower-case practice, level and tradition, so that the
    lower-case spelling of the same request, made while the entry is
    fresh, is answered from it with no prompt sent.  The arguments are
    in 7-bit characters. *)
Theorem practice_level_normalized
    (practice level content : string) (tradition : option string) (w : world) :
  ascii_only practice = true →
  ascii_only level = true →
  from_option ascii_only true tradition = true →
  let kept := normalize_level level in
  ((lower level = "beginner" ∨ lower level = "intermediate" ∨ lower level = "advanced") →
   kept = level)
  ∧ (¬ (lower level = "beginner" ∨ lower level = "intermediate" ∨ lower level = "advanced") →
     kept = "beginner")
  ∧ practice_cache_key practice tradition kept
    = practice_cache_key (lower practice) (lower <$> tradition) (normalize_level (lower level))
  ∧ (model E "gemini-1.5-pro" (length (prompts w))
       (AgentRest.practice_prompt practice tradition kept) = WithText content →
     AgentRest.get_spiritual_practice_guide E practice tradition level w
     = (Return (VDict [("status", VStr "success");
                       ("practice", VStr practice);
                       ("tradition", opt_str tradition);
                       ("level", VStr kept);
                       ("guide", VStr content)]),
        {| response_cache := response_cache w;
           clock_reads := clock_reads w;
           prompts := prompts w
                      ++ [("gemini-1.5-pro", AgentRest.practice_prompt practice tradition kept)];
           stdout := stdout w |}))
  ∧ (practice ≠ "" →
     response_cache w !! practice_cache_key practice tradition kept = None →
     model E PkgSpiritualApi.MODEL (length (prompts w))
       (practice_prompt practice tradition kept) = WithText content →
     let result := practice_result practice tradition kept content in
     let after := after_fetch E PkgSpiritualApi.MODEL w
                    (practice_cache_key practice tradition kept)
                    (practice_prompt practice tradition kept) result in
     let again := get_spiritual_practice_guide E (lower practice) (lower <$> tradition)
                    (lower level) after in
     get_spiritual_practice_guide E practice tradition level w = (Return result, after)
     ∧ ((float_sub (clock E (S (clock_reads w))) (clock E (clock_reads w)) < cache_time)%Q →
        fst again = Return result ∧ prompts (snd again) = prompts after)).
Proof.
  intros _ _ _ kept.
  assert (Hkey : practice_cache_key practice tradition kept
                 = practice_cache_key (lower practice) (lower <$> tradition)
                     (normalize_level (lower level))).
  { unfold kept, practice_cache_key.
    assert (lower (normalize_level level) = lower (normalize_level (lower level))) as ->.
    { destruct (normalize_level_cases level) as [[H ->]|[H ->]];
        destruct (normalize_level_cases (lower level)) as [[H' ->]|[H' ->]];
        rewrite ?lower_idem in *; done. }
    rewrite lower_idem. f_equal. f_equal.
    destruct tradition as [t|]; [|done]. cbn [fmap option_fmap option_map].
    unfold given. cbn [opt_str]. rewrite lower_truthy, lower_idem. done. }
  split; [|split; [|split; [exact Hkey|split]]].
  - intros H. unfold kept. by destruct (normalize_level_cases level) as [[_ ?]|[? _]].
  - intros H. unfold kept. by destruct (normalize_level_cases level) as [[? _]|[_ ?]].
  - intros Hgen. unfold AgentRest.get_spiritual_practice_guide, catch, bind,
      generate_content. cbv beta iota zeta. fold kept. rewrite Hgen. reflexivity.
  - intros Hne Hmiss Hgen result after again. split.
    + unfold get_spiritual_practice_guide, catch, bind.
      rewrite (nonempty_truthy _ Hne). cbv beta iota zeta delta [negb]. fold kept.
      rewrite (cache_get_miss E _ _ Hmiss). unfold generate_content.
      cbv beta iota zeta. rewrite Hgen. reflexivity.
    + intros Hfresh.
      assert (Hget : cache_get E (practice_cache_key (lower practice) (lower <$> tradition)
                                    (normalize_level (lower level))) after
                = (Return (Some result),
                   {| response_cache := response_cache after;
                      clock_reads := S (S (clock_reads w));
                      prompts := prompts w
                                 ++ [(PkgSpiritualApi.MODEL,
                                      practice_prompt practice tradition kept)];
                      stdout := stdout w |})).
      { rewrite <- Hkey. unfold after. rewrite cache_get_after_fetch.
        assert (fresh (clock E (S (clock_reads w)))
                  {| data := result; timestamp := clock E (clock_reads w) |} = true) as ->
          by (by apply fresh_iff).
        reflexivity. }
      unfold again, get_spiritual_practice_guide, catch, bind.
      rewrite lower_truthy, (nonempty_truthy _ Hne). cbv beta iota zeta delta [negb].
      rewrite Hget. by split.
Qed.

End Practice.

(** ** Daily insight *)

Section Daily.
Import Knowledge SpiritualApiDaily.
Variable E : env.
Variable self_model : string.

Lemma append_same_length (a b x y : string) :
  String.length a = String.length b → a +:+ x = b +:+ y → a = b.
Proof.
  revert b. induction a as [|c a IH]; intros [|c' b] Hlen Heq; try done.
  change (String c (a +:+ x) = String c' (b +:+ y)) in Heq.
  injection Heq as -> Heq. f_equal. apply IH; [|done].
  by injection Hlen.
Qed.

Lemma daily_cache_key_parts today tradition theme :
  ∃ suffix, daily_cache_key today tradition theme = "daily-" +:+ today +:+ suffix.
Proof.
  exists ((match tradition with
           | Some t => if given tradition then "-" +:+ t else ""
           | None => ""
           end)
          +:+ (match theme with
               | Some t => if given theme then "-" +:+ t else ""
               | None => ""
               end)).
  unfold daily_cache_key.
  destruct tradition as [t|], theme as [th|]; cbv zeta;
    try destruct (given (Some t)); try destruct (given (Some th));
    rewrite ?append_assoc, ?append_empty_r; reflexivity.
Qed.

(** The date is part of the key: the entries of two different dates,
    written as strings of the same length as [%Y-%m-%d] gives, never
    share a key, whatever the tradition and the theme. *)
Theorem daily_keys_differ_by_date
    (date1 date2 : string) (tradition1 theme1 tradition2 theme2 : option string) :
  String.length date1 = String.length date2 →
  date1 ≠ date2 →
  daily_cache_key date1 tradition1 theme1 ≠ daily_cache_key date2 tradition2 theme2.
Proof.
  intros Hlen Hne Heq.
  destruct (daily_cache_key_parts date1 tradition1 theme1) as [s1 H1].
  destruct (daily_cache_key_parts date2 tradition2 theme2) as [s2 H2].
  rewrite H1, H2 in Heq.
  apply Hne. apply (append_same_length date1 date2 s1 s2 Hlen).
  by apply (inj (String.app "daily-")) in Heq.
Qed.

(** A stored daily insight is served for its date however old it is: when
    the key is in the cache and the date has not changed since the key was
    made, the stored payload is returned, the clock is not read and the
    Generation Service is not asked.  When the date changes between the
    two readings, the insight is generated again and stored under the
    key of the first reading. *)
Theorem daily_insight_cached_by_date
    (today today_at_check : string) (tradition theme : option string)
    (w : world) (entry : cache_entry) :
  response_cache w !! daily_cache_key today tradition theme = Some entry →
  (today_at_check = today →
   get_daily_spiritual_insight E self_model today today_at_check tradition theme w
   = (Return (data entry),
      {| response_cache := response_cache w;
         clock_reads := clock_reads w;
         prompts := prompts w;
         stdout := stdout w ++ ["Using cached daily insight"] |}))
  ∧ (today_at_check ≠ today →
     prompts (snd (get_daily_spiritual_insight E self_model today today_at_check
                     tradition theme w))
     = prompts w ++ [(self_model, daily_prompt tradition theme)]).
Proof.
  intros Hhit. split.
  - intros ->. unfold get_daily_spiritual_insight, catch, bind, read_cache.
    cbn [fst snd]. rewrite Hhit, String.eqb_refl. reflexivity.
  - intros Hne. apply String.eqb_neq in Hne.
    unfold get_daily_spiritual_insight, catch, bind, read_cache.
    cbn [fst snd]. rewrite Hhit, Hne.
    unfold generate_daily, bind, generate_content. cbv beta iota zeta.
    by destruct (model E self_model _ _).
Qed.


End Daily.

(** ** Validation of the arguments *)

Section Arguments.
Import Knowledge.
Variable E : env.


(** A comparison names the first identifier it does not know, in lower
    case: the first religion if that one is unknown, else the second; the
    error payload comes back at once, with nothing printed, stored or
    asked.  Both copies of the class do so.  The identifiers are in 7-bit
    characters. *)
Theorem comparison_validation (self_model religion1 religion2 aspect : string) (w : world) :
  religion1 ≠ "" → religion2 ≠ "" →
  ascii_only religion1 = true → ascii_only religion2 = true →
  (dict_mem (lower religion1) RELIGIONS = false →
   SpiritualApi.compare_religions E self_model religion1 religion2 aspect w
     = (Return (error_payload ("Unknown religion: " +:+ lower religion1)), w)
   ∧ PkgSpiritualApiRest.compare_religions E religion1 religion2 aspect w
     = (Return (PkgSpiritualApiRest.unknown_religion (lower religion1)), w))
  ∧ (dict_mem (lower religion1) RELIGIONS = true →
     dict_mem (lower religion2) RELIGIONS = false →
     SpiritualApi.compare_religions E self_model religion1 religion2 aspect w
       = (Return (error_payload ("Unknown religion: " +:+ lower religion2)), w)
     ∧ PkgSpiritualApiRest.compare_religions E religion1 religion2 aspect w
       = (Return (PkgSpiritualApiRest.unknown_religion (lower religion2)), w)).
Proof.
  intros H1 H2 _ _.
  unfold SpiritualApi.compare_religions, PkgSpiritualApiRest.compare_religions, catch.
  rewrite !nonempty_truthy by done. cbn [negb orb].
  split.
  - intros ->. by split.
  - intros -> ->. by split.
Qed.

(** The comparison, in both copies and as a tool, and the philosophical
    perspective of the packaged class put their identifiers in lower
    case first: a call with any spelling of non-empty identifiers does
    exactly what the call with the lower-case spelling does. *)
Theorem comparison_case_insensitive
    (self_model r1 r2 aspect : string) (topic : option string) (w : world) :
  r1 ≠ "" → r2 ≠ "" →
  SpiritualApi.compare_religions E self_model r1 r2 aspect w
    = SpiritualApi.compare_religions E self_model (lower r1) (lower r2) aspect w
  ∧ PkgSpiritualApiRest.compare_religions E r1 r2 aspect w
    = PkgSpiritualApiRest.compare_religions E (lower r1) (lower r2) aspect w
  ∧ Agent.compare_religions E r1 r2 aspect w
    = Agent.compare_religions E (lower r1) (lower r2) aspect w
  ∧ PkgSpiritualApiRest.get_philosophical_perspective E r1 topic w
    = PkgSpiritualApiRest.get_philosophical_perspective E (lower r1) topic w.
Proof.
  intros H1 H2.
  unfold Agent.compare_religions, SpiritualApi.compare_religions,
    PkgSpiritualApiRest.compare_religions,
    PkgSpiritualApiRest.get_philosophical_perspective.
  rewrite !lower_truthy, !lower_idem, !nonempty_truthy by done.
  by repeat split.
Qed.




End Arguments.

Section MoreKnowledgeExamples.
Import Knowledge Examples.


Lemma long_questions_share_an_entry_witness :
  fst (SpiritualApi.get_religious_information E_answers SpiritualApi.MODEL "islam" "rituals"
         (Some "What is the meaning of the pilgrimage to Mecca for women?")
         (snd (SpiritualApi.get_religious_information E_answers SpiritualApi.MODEL
                 "islam" "rituals"
                 (Some "What is the meaning of the pilgrimage to Mecca for men?")
                 new_world)))
  = Return (SpiritualApi.religion_result "islam" "rituals"
              (Some "What is the meaning of the pilgrimage to Mecca for men?") "generated").
Proof.
  apply (long_questions_share_an_entry E_answers SpiritualApi.MODEL "islam" "rituals"
           "What is the meaning of the pilgrimage to Mecca for men?"
           "What is the meaning of the pilgrimage to Mecca for women?"
           "generated" new_world);
    first [reflexivity | discriminate | (vm_compute; reflexivity)].
Defined.

Lemma category_and_question_run_together_witness :
  SpiritualApi.religion_cache_key "islam" "history" (Some "rituals")
  = SpiritualApi.religion_cache_key "islam" "history-rituals" None.
Proof.
  apply (category_and_question_run_together "islam" "history" "rituals");
    [discriminate | discriminate | reflexivity].
Defined.

Lemma reordered_participants_get_first_answer_witness :
  fst (PkgSpiritualApi.get_interfaith_dialogue E_answers "ethics" (Some ["buddhism"; "islam"])
         (snd (PkgSpiritualApi.get_interfaith_dialogue E_answers "ethics"
                 (Some ["islam"; "buddhism"]) new_world)))
  = fst (PkgSpiritualApi.get_interfaith_dialogue E_answers "ethics"
           (Some ["islam"; "buddhism"]) new_world).
Proof.
  apply (reordered_participants_get_first_answer E_answers "ethics" "generated"
           ["islam"; "buddhism"] ["buddhism"; "islam"] new_world).
  - discriminate.
  - reflexivity.
  - reflexivity.
  - apply perm_swap.
  - simpl. lia.
  - reflexivity.
  - reflexivity.
  - vm_compute. reflexivity.
Defined.

Lemma repeated_participant_counts_twice_witness :
  fst (Agent.get_interfaith_dialogue E_answers "ethics" (Some ["Islam"; "Islam"]) new_world)
  = Return (VDict [("status", VStr "success");
                   ("topic", VStr "ethics");
                   ("religions", VList [VStr "islam"; VStr "islam"]);
                   ("dialogue", VStr "generated")]).
Proof.
  apply (repeated_participant_counts_twice E_answers "ethics" "generated" "Islam" new_world);
    reflexivity.
Defined.

Lemma practice_level_normalized_witness :
  PkgSpiritualApiRest.normalize_level "expert" = "beginner"
  ∧ PkgSpiritualApiRest.normalize_level "Advanced" = "Advanced"
  ∧ fst (AgentRest.get_spiritual_practice_guide E_answers "meditation" None "expert" new_world)
    = Return (VDict [("status", VStr "success");
                     ("practice", VStr "meditation");
                     ("tradition", VNone);
                     ("level", VStr "beginner");
                     ("guide", VStr "generated")])
  ∧ fst (PkgSpiritualApiRest.get_spiritual_practice_guide E_answers
           "meditation" (Some "zen") "advanced"
           (snd (PkgSpiritualApiRest.get_spiritual_practice_guide E_answers
                   "Meditation" (Some "Zen") "Advanced" new_world)))
    = Return (PkgSpiritualApiRest.practice_result "Meditation" (Some "Zen") "Advanced"
                "generated").
Proof.
  split; [|split; [|split]].
  - apply (proj1 (proj2 (practice_level_normalized E_answers "meditation" "expert"
                           "generated" None new_world eq_refl eq_refl eq_refl))).
    by intros [|[|]].
  - apply (proj1 (practice_level_normalized E_answers "meditation" "Advanced"
                    "generated" None new_world eq_refl eq_refl eq_refl)).
    right; right; reflexivity.
  - rewrite (proj1 (proj2 (proj2 (proj2
               (practice_level_normalized E_answers "meditation" "expert"
                  "generated" None new_world eq_refl eq_refl eq_refl))))
               eq_refl).
    reflexivity.
  - apply (proj2 (proj2 (proj2 (proj2 (proj2
             (practice_level_normalized E_answers "Meditation" "Advanced"
                "generated" (Some "Zen") new_world eq_refl eq_refl eq_refl))))
             ltac:(discriminate) eq_refl eq_refl)).
    vm_compute. reflexivity.
Defined.

Lemma daily_keys_differ_by_date_witness :
  SpiritualApiDaily.daily_cache_key "2026-11-03" (Some "zen") None
  ≠ SpiritualApiDaily.daily_cache_key "2026-11-04" (Some "zen") None.
Proof.
  apply (daily_keys_differ_by_date "2026-11-03" "2026-11-04"); [reflexivity|discriminate].
Defined.

Lemma daily_insight_cached_by_date_witness :
  fst (SpiritualApiDaily.get_daily_spiritual_insight E_a_day_per_reading SpiritualApi.MODEL
         "2026-11-03" "2026-11-03" None (Some "peace")
         (snd (SpiritualApiDaily.get_daily_spiritual_insight E_a_day_per_reading
                 SpiritualApi.MODEL "2026-11-03" "2026-11-03" None (Some "peace") new_world)))
  = Return (SpiritualApiDaily.daily_result "2026-11-03" None (Some "peace") "generated").
Proof.
  rewrite (proj1 (daily_insight_cached_by_date E_a_day_per_reading SpiritualApi.MODEL
                    "2026-11-03" "2026-11-03" None (Some "peace")
                    (snd (SpiritualApiDaily.get_daily_spiritual_insight E_a_day_per_reading
                            SpiritualApi.MODEL "2026-11-03" "2026-11-03" None (Some "peace")
                            new_world))
                    {| data := SpiritualApiDaily.daily_result "2026-11-03" None (Some "peace")
                                 "generated";
                       timestamp := 0 |}
                    eq_refl) eq_refl).
  reflexivity.
Defined.


Lemma comparison_validation_witness :
  SpiritualApi.compare_religions E_answers SpiritualApi.MODEL "Atlantis" "Lemuria" "general"
    new_world
    = (Return (error_payload "Unknown religion: atlantis"), new_world)
  ∧ SpiritualApi.compare_religions E_answers SpiritualApi.MODEL "Islam" "Lemuria" "general"
      new_world
    = (Return (error_payload "Unknown religion: lemuria"), new_world).
Proof.
  split.
  - apply (proj1 (comparison_validation E_answers SpiritualApi.MODEL "Atlantis" "Lemuria"
                    "general" new_world ltac:(discriminate) ltac:(discriminate)
                    eq_refl eq_refl)).
    reflexivity.
  - apply (proj2 (comparison_validation E_answers SpiritualApi.MODEL "Islam" "Lemuria"
                    "general" new_world ltac:(discriminate) ltac:(discriminate)
                    eq_refl eq_refl));
      reflexivity.
Defined.

Lemma comparison_case_insensitive_witness :
  SpiritualApi.compare_religions E_answers SpiritualApi.MODEL "Islam" "JUDAISM" "ethics"
    new_world
  = SpiritualApi.compare_religions E_answers SpiritualApi.MODEL "islam" "judaism" "ethics"
      new_world.
Proof.
  apply (comparison_case_insensitive E_answers SpiritualApi.MODEL "Islam" "JUDAISM" "ethics"
           None new_world); discriminate.
Defined.


End MoreKnowledgeExamples.
